(** * Fundamental-Analysis-Bot: the GOOG conviction pipeline

    A shallow embedding of [src/Fundamental_Bot.py] (class
    [EnhancedGOOGAnalyzer]) and the properties its specification states.

    Modelling conventions.
    - Python numbers are idealised as real numbers ([R]): [float]
      rounding, [nan] and [inf] are outside the model.  Scores that the
      source builds from integer literals only are integers ([Z]).
      Comparisons of reals are decided by [Rlt_dec] and its kin, so a
      run on a given input is established by rewriting ([py_eval]), not
      by computation.
    - A JSON object or Python [dict] with data-dependent keys is a
      [gmap string _]; [d.get(k, default)] is [dget].  A value found in
      such an object is a number, a string or [None] ([pyval]).
    - The object's mutable attributes ([data_flags], [valuation_metrics],
      [ceo_database]) form the record [analyzer], threaded through the
      methods by the monad [py], which also carries Python exceptions.
    - What the network returns is the record [world]: one field per call
      site.  [None] for a yfinance field means the lookup raised; [None]
      for an FMP field is what [safe_api_call] returns on any failure.
    - Console output and what is collected for display only are left
      out: the narrative [reasons] lists, the lists of historical
      records, estimates and revision snapshots, the sector and economic
      indicator tables, the statement figures.  Formatting a value with
      a numeric format ([f"{x:.2f}"]) is kept as [fmt], because it
      raises on a non-number. *)

From Stdlib Require Import Reals Lra ZArith Lia.
From stdpp Require Import base option list gmap strings sorting.

Open Scope R_scope.
Open Scope Z_scope.
Open Scope string_scope.

(** ** Python values and exceptions *)

Inductive pyval : Type :=
  | VNone
  | VNum (r : R)
  | VStr (s : string).

Inductive exn : Type :=
  | TypeError
  | ValueError
  | KeyError
  | ZeroDivisionError
  | ConnectionError.

Inductive result (A : Type) : Type :=
  | Ok (a : A)
  | Raise (e : exn).
Arguments Ok {A} a.
Arguments Raise {A} e.

(** Sequencing, shared by pure computations that may raise ([result])
    and by methods ([py], below). *)
Class Monad (M : Type → Type) : Type := {
  ret : ∀ {A : Type}, A → M A;
  bind : ∀ {A B : Type}, M A → (A → M B) → M B
}.

Declare Scope py_scope.
Notation "x ← y ; z" := (bind y (λ x, z))
  (at level 20, y at level 100, z at level 200, only parsing) : py_scope.
Notation "x ;; z" := (bind x (λ _, z))
  (at level 100, z at level 200, only parsing, right associativity) : py_scope.
Open Scope py_scope.

#[global] Instance result_monad : Monad result := {
  ret := @Ok;
  bind := λ A B m f,
    match m with
    | Ok a => f a
    | Raise e => Raise e
    end
}.

Abbreviation payload := (gmap string pyval).

(** [d.get(k, default)] *)
Definition dget (d : payload) (k : string) (dflt : pyval) : pyval :=
  default dflt (d !! k).

(** ** Comparisons on idealised floats *)

Definition Rgtb (x y : R) : bool := if Rlt_dec y x then true else false.
Definition Rltb (x y : R) : bool := if Rlt_dec x y then true else false.
Definition Rgeb (x y : R) : bool := if Rle_dec y x then true else false.
Definition Reqb (x y : R) : bool := if Req_dec_T x y then true else false.

(** Truth value of an object in a condition: [if v:]. *)
Definition truthy (v : pyval) : bool :=
  match v with
  | VNone => false
  | VNum r => negb (Reqb r 0)
  | VStr s => negb (String.eqb s "")
  end.

(** A number is required: arithmetic and ordering raise [TypeError] on
    [None] and on strings. *)
Definition as_num (v : pyval) : result R :=
  match v with
  | VNum r => Ok r
  | _ => Raise TypeError
  end.

(** [f"{v:.2f}"] and the like: [None] raises [TypeError], a string
    [ValueError]; the text itself is not modelled. *)
Definition fmt (v : pyval) : result unit :=
  match v with
  | VNum _ => Ok tt
  | VNone => Raise TypeError
  | VStr _ => Raise ValueError
  end.

(** [a / b] on Python floats. *)
Definition py_div (a b : R) : result R :=
  if Reqb b 0 then Raise ZeroDivisionError else Ok (a / b)%R.

(** [v == 0]: never raises; [None] and strings are not equal to 0. *)
Definition py_eq0 (v : pyval) : bool :=
  match v with
  | VNum r => Reqb r 0
  | _ => false
  end.

(** [v == s] for a string literal [s]. *)
Definition py_eq_str (v : pyval) (s : string) : bool :=
  match v with
  | VStr t => String.eqb t s
  | _ => false
  end.

(** Truth value of a dict: non-empty. *)
Definition truthy_payload (d : payload) : bool :=
  negb (bool_decide (dom d = ∅)).

(** ** The analyzer object *)

Record flags : Type := {
  fmp_api_accessible : bool;
  alpha_vantage_accessible : bool;
  fred_api_accessible : bool;
  yfinance_accessible : bool;
  earnings_data_available : bool;
  revision_data_available : bool;
  macro_data_available : bool;
  valuation_data_complete : bool;
  financial_statements_available : bool;
  analyst_estimates_available : bool;
  insider_trading_available : bool;
  institutional_holdings_available : bool;
  options_data_available : bool;
  news_sentiment_available : bool
}.

(** [self.data_flags[k] = b]: one setter per flag that a method writes. *)

Definition set_fmp_api_accessible (b : bool) (f : flags) : flags :=
  {| fmp_api_accessible := b;
     alpha_vantage_accessible := alpha_vantage_accessible f;
     fred_api_accessible := fred_api_accessible f;
     yfinance_accessible := yfinance_accessible f;
     earnings_data_available := earnings_data_available f;
     revision_data_available := revision_data_available f;
     macro_data_available := macro_data_available f;
     valuation_data_complete := valuation_data_complete f;
     financial_statements_available := financial_statements_available f;
     analyst_estimates_available := analyst_estimates_available f;
     insider_trading_available := insider_trading_available f;
     institutional_holdings_available := institutional_holdings_available f;
     options_data_available := options_data_available f;
     news_sentiment_available := news_sentiment_available f |}.

Definition set_alpha_vantage_accessible (b : bool) (f : flags) : flags :=
  {| fmp_api_accessible := fmp_api_accessible f;
     alpha_vantage_accessible := b;
     fred_api_accessible := fred_api_accessible f;
     yfinance_accessible := yfinance_accessible f;
     earnings_data_available := earnings_data_available f;
     revision_data_available := revision_data_available f;
     macro_data_available := macro_data_available f;
     valuation_data_complete := valuation_data_complete f;
     financial_statements_available := financial_statements_available f;
     analyst_estimates_available := analyst_estimates_available f;
     insider_trading_available := insider_trading_available f;
     institutional_holdings_available := institutional_holdings_available f;
     options_data_available := options_data_available f;
     news_sentiment_available := news_sentiment_available f |}.

Definition set_fred_api_accessible (b : bool) (f : flags) : flags :=
  {| fmp_api_accessible := fmp_api_accessible f;
     alpha_vantage_accessible := alpha_vantage_accessible f;
     fred_api_accessible := b;
     yfinance_accessible := yfinance_accessible f;
     earnings_data_available := earnings_data_available f;
     revision_data_available := revision_data_available f;
     macro_data_available := macro_data_available f;
     valuation_data_complete := valuation_data_complete f;
     financial_statements_available := financial_statements_available f;
     analyst_estimates_available := analyst_estimates_available f;
     insider_trading_available := insider_trading_available f;
     institutional_holdings_available := institutional_holdings_available f;
     options_data_available := options_data_available f;
     news_sentiment_available := news_sentiment_available f |}.

Definition set_yfinance_accessible (b : bool) (f : flags) : flags :=
  {| fmp_api_accessible := fmp_api_accessible f;
     alpha_vantage_accessible := alpha_vantage_accessible f;
     fred_api_accessible := fred_api_accessible f;
     yfinance_accessible := b;
     earnings_data_available := earnings_data_available f;
     revision_data_available := revision_data_available f;
     macro_data_available := macro_data_available f;
     valuation_data_complete := valuation_data_complete f;
     financial_statements_available := financial_statements_available f;
     analyst_estimates_available := analyst_estimates_available f;
     insider_trading_available := insider_trading_available f;
     institutional_holdings_available := institutional_holdings_available f;
     options_data_available := options_data_available f;
     news_sentiment_available := news_sentiment_available f |}.

Definition set_earnings_data_available (b : bool) (f : flags) : flags :=
  {| fmp_api_accessible := fmp_api_accessible f;
     alpha_vantage_accessible := alpha_vantage_accessible f;
     fred_api_accessible := fred_api_accessible f;
     yfinance_accessible := yfinance_accessible f;
     earnings_data_available := b;
     revision_data_available := revision_data_available f;
     macro_data_available := macro_data_available f;
     valuation_data_complete := valuation_data_complete f;
     financial_statements_available := financial_statements_available f;
     analyst_estimates_available := analyst_estimates_available f;
     insider_trading_available := insider_trading_available f;
     institutional_holdings_available := institutional_holdings_available f;
     options_data_available := options_data_available f;
     news_sentiment_available := news_sentiment_available f |}.

Definition set_revision_data_available (b : bool) (f : flags) : flags :=
  {| fmp_api_accessible := fmp_api_accessible f;
     alpha_vantage_accessible := alpha_vantage_accessible f;
     fred_api_accessible := fred_api_accessible f;
     yfinance_accessible := yfinance_accessible f;
     earnings_data_available := earnings_data_available f;
     revision_data_available := b;
     macro_data_available := macro_data_available f;
     valuation_data_complete := valuation_data_complete f;
     financial_statements_available := financial_statements_available f;
     analyst_estimates_available := analyst_estimates_available f;
     insider_trading_available := insider_trading_available f;
     institutional_holdings_available := institutional_holdings_available f;
     options_data_available := options_data_available f;
     news_sentiment_available := news_sentiment_available f |}.

Definition set_macro_data_available (b : bool) (f : flags) : flags :=
  {| fmp_api_accessible := fmp_api_accessible f;
     alpha_vantage_accessible := alpha_vantage_accessible f;
     fred_api_accessible := fred_api_accessible f;
     yfinance_accessible := yfinance_accessible f;
     earnings_data_available := earnings_data_available f;
     revision_data_available := revision_data_available f;
     macro_data_available := b;
     valuation_data_complete := valuation_data_complete f;
     financial_statements_available := financial_statements_available f;
     analyst_estimates_available := analyst_estimates_available f;
     insider_trading_available := insider_trading_available f;
     institutional_holdings_available := institutional_holdings_available f;
     options_data_available := options_data_available f;
     news_sentiment_available := news_sentiment_available f |}.

Definition set_valuation_data_complete (b : bool) (f : flags) : flags :=
  {| fmp_api_accessible := fmp_api_accessible f;
     alpha_vantage_accessible := alpha_vantage_accessible f;
     fred_api_accessible := fred_api_accessible f;
     yfinance_accessible := yfinance_accessible f;
     earnings_data_available := earnings_data_available f;
     revision_data_available := revision_data_available f;
     macro_data_available := macro_data_available f;
     valuation_data_complete := b;
     financial_statements_available := financial_statements_available f;
     analyst_estimates_available := analyst_estimates_available f;
     insider_trading_available := insider_trading_available f;
     institutional_holdings_available := institutional_holdings_available f;
     options_data_available := options_data_available f;
     news_sentiment_available := news_sentiment_available f |}.

Definition set_financial_statements_available (b : bool) (f : flags) : flags :=
  {| fmp_api_accessible := fmp_api_accessible f;
     alpha_vantage_accessible := alpha_vantage_accessible f;
     fred_api_accessible := fred_api_accessible f;
     yfinance_accessible := yfinance_accessible f;
     earnings_data_available := earnings_data_available f;
     revision_data_available := revision_data_available f;
     macro_data_available := macro_data_available f;
     valuation_data_complete := valuation_data_complete f;
     financial_statements_available := b;
     analyst_estimates_available := analyst_estimates_available f;
     insider_trading_available := insider_trading_available f;
     institutional_holdings_available := institutional_holdings_available f;
     options_data_available := options_data_available f;
     news_sentiment_available := news_sentiment_available f |}.

Definition set_analyst_estimates_available (b : bool) (f : flags) : flags :=
  {| fmp_api_accessible := fmp_api_accessible f;
     alpha_vantage_accessible := alpha_vantage_accessible f;
     fred_api_accessible := fred_api_accessible f;
     yfinance_accessible := yfinance_accessible f;
     earnings_data_available := earnings_data_available f;
     revision_data_available := revision_data_available f;
     macro_data_available := macro_data_available f;
     valuation_data_complete := valuation_data_complete f;
     financial_statements_available := financial_statements_available f;
     analyst_estimates_available := b;
     insider_trading_available := insider_trading_available f;
     institutional_holdings_available := institutional_holdings_available f;
     options_data_available := options_data_available f;
     news_sentiment_available := news_sentiment_available f |}.
Record ceo_entry : Type := {
  name : string;
  was_cfo : bool;
  background : string;
  vision : Z;
  execution : Z;
  founder : bool;
  technical : bool;
  strategic : bool;
  notes : string
}.

Record analyzer : Type := {
  data_flags : flags;
  valuation_metrics : gmap string payload;
  ceo_database : gmap string ceo_entry
}.

Definition with_flags (f : flags → flags) (self : analyzer) : analyzer :=
  {| data_flags := f (data_flags self);
     valuation_metrics := valuation_metrics self;
     ceo_database := ceo_database self |}.

Definition set_metrics (cat : string) (m : payload) (self : analyzer) : analyzer :=
  {| data_flags := data_flags self;
     valuation_metrics := <[cat := m]> (valuation_metrics self);
     ceo_database := ceo_database self |}.

(** [__init__] *)
Definition init_flags : flags :=
  {| fmp_api_accessible := false; alpha_vantage_accessible := false;
     fred_api_accessible := false; yfinance_accessible := false;
     earnings_data_available := false; revision_data_available := false;
     macro_data_available := false; valuation_data_complete := false;
     financial_statements_available := false;
     analyst_estimates_available := false;
     insider_trading_available := false;
     institutional_holdings_available := false;
     options_data_available := false; news_sentiment_available := false |}.

Definition init_metrics : gmap string payload :=
  {[ "price_metrics" := ∅; "ratio_metrics" := ∅; "growth_metrics" := ∅;
     "profitability_metrics" := ∅; "efficiency_metrics" := ∅;
     "leverage_metrics" := ∅; "liquidity_metrics" := ∅;
     "market_metrics" := ∅; "dividend_metrics" := ∅;
     "quality_metrics" := ∅ ]}.

Definition goog_ceo : ceo_entry :=
  {| name := "Sundar Pichai"; was_cfo := false;
     background := "engineer_product"; vision := 9; execution := 9;
     founder := false; technical := true; strategic := true;
     notes := "Former product head at Google. Engineering background. Led Chrome, Android before CEO. Strong AI vision." |}.

Definition init : analyzer :=
  {| data_flags := init_flags;
     valuation_metrics := init_metrics;
     ceo_database := {[ "GOOG" := goog_ceo ]} |}.

(** ** Recommendation Mapper: [get_position_recommendation] *)

Record recommendation : Type := {
  action : string;
  position_size : string;
  risk_level : string;
  urgency : string;
  rationale : string
}.

Definition get_position_recommendation (conviction_score : R) : recommendation :=
  if Rgeb conviction_score 80 then
    {| action := "🚀 MAXIMUM CONVICTION BUY";
       position_size := "Very Large (10-15% portfolio)";
       risk_level := "MAXIMUM CONVICTION";
       urgency := "IMMEDIATE";
       rationale := "Exceptional conviction across all metrics - rare opportunity" |}
  else if Rgeb conviction_score 70 then
    {| action := "🐂 GRAB BULL BY HORNS";
       position_size := "Large (7-10% portfolio)";
       risk_level := "VERY HIGH CONVICTION";
       urgency := "IMMEDIATE";
       rationale := "High conviction - time to make a major bet" |}
  else if Rgeb conviction_score 60 then
    {| action := "💪 STRONG BUY";
       position_size := "Medium-Large (5-7% portfolio)";
       risk_level := "HIGH CONVICTION";
       urgency := "HIGH";
       rationale := "Strong fundamentals support significant position" |}
  else if Rgeb conviction_score 50 then
    {| action := "🚀 BUY";
       position_size := "Medium (3-5% portfolio)";
       risk_level := "STRONG CONVICTION";
       urgency := "MEDIUM-HIGH";
       rationale := "Good opportunity with solid conviction" |}
  else if Rgeb conviction_score 40 then
    {| action := "👀 WATCH/SMALL BUY";
       position_size := "Small (1-3% portfolio)";
       risk_level := "MODERATE CONVICTION";
       urgency := "MEDIUM";
       rationale := "Some positive factors but limited conviction" |}
  else
    {| action := "❌ AVOID";
       position_size := "None (0% portfolio)";
       risk_level := "NO CONVICTION";
       urgency := "NONE";
       rationale := "Insufficient conviction for investment" |}.

(** ** Methods as state transformers that may raise *)

Definition py (A : Type) : Type := analyzer → result A * analyzer.

#[global] Instance py_monad : Monad py := {
  ret := λ A a self, (Ok a, self);
  bind := λ A B m f self,
    match m self with
    | (Ok a, self') => f a self'
    | (Raise e, self') => (Raise e, self')
    end
}.

(** A pure computation that may raise, run inside a method. *)
Definition lift {A : Type} (r : result A) : py A := λ self, (r, self).

Definition get_self : py analyzer := λ self, (Ok self, self).

Definition set_flag (set : bool → flags → flags) (b : bool) : py unit :=
  λ self, (Ok tt, with_flags (set b) self).

Definition flag (get : flags → bool) : py bool :=
  λ self, (Ok (get (data_flags self)), self).

(** [try: body  except Exception as e: handler]: the handler runs in the
    state the body had reached when it raised. *)
Definition try_except {A : Type} (body : py A) (handler : exn → py A) : py A :=
  λ self,
    match body self with
    | (Ok a, self') => (Ok a, self')
    | (Raise e, self') => handler e self'
    end.

(** ** What the providers return *)

(** The price history of one sector ETF: closing prices over three
    months and over one year; [None] when the lookup raises. *)
Record etf_feed : Type := {
  hist_3mo : option (list R);
  hist_1y : option (list R)
}.

(** One row of the analyst-estimates table after [pd.DataFrame] and
    [pd.to_datetime]: the date as an ordinal, the EPS average.  (A
    payload without these columns makes the DataFrame code raise inside
    its [try] block, which then changes nothing.) *)
Record estimate_row : Type := {
  date : Z;
  estimatedEpsAvg : R
}.

Record world : Type := {
  (* yfinance [stock.info], per call site *)
  yf_test : option payload;        (* test_api_connections *)
  yf_valuation : option payload;   (* get_comprehensive_valuation_data *)
  yf_quote : option payload;       (* calculate_goog_conviction_score *)
  yf_earnings : option payload;    (* get_goog_earnings_data *)
  yf_revisions : option payload;   (* get_goog_revisions *)
  yf_ceo : option payload;         (* analyze_goog_ceo *)
  (* connection tests: status 200 with a non-empty body *)
  fmp_test : bool;
  alpha_vantage_test : bool;
  fred_test : bool;
  (* results of safe_api_call *)
  fmp_income_statement : option (list payload);  (* get_enhanced_financial_statements *)
  alpha_vantage_overview : bool;   (* overview retrieved and every ratio parsed *)
  fmp_historical_earnings : option (list payload);
  fmp_analyst_estimates : option (list payload);
  fmp_revision_analysis : option (list estimate_row);
  (* sector ETFs *)
  etf : string → etf_feed
}.

(** ** [test_api_connections] *)

Definition test_api_connections (w : world) : py unit :=
  (if fmp_test w then set_flag set_fmp_api_accessible true else ret tt);;
  (if alpha_vantage_test w then set_flag set_alpha_vantage_accessible true
   else ret tt);;
  (if fred_test w then set_flag set_fred_api_accessible true else ret tt);;
  match yf_test w with
  | Some info =>
      if truthy_payload info && py_eq_str (dget info "symbol" VNone) "GOOG"
      then set_flag set_yfinance_accessible true
      else ret tt
  | None => ret tt
  end.

(** ** Metrics Normalizer: [get_comprehensive_valuation_data] *)

Definition num0 : pyval := VNum 0.

(** [(current_price / info.get(k, 1) - 1) if info.get(k) else 0] *)
Definition price_vs (current_price : pyval) (info : payload) (k : string)
  : result pyval :=
  if truthy (dget info k VNone) then
    c ← as_num current_price;
    h ← as_num (dget info k (VNum 1));
    q ← py_div c h;
    ret (VNum (q - 1))
  else ret num0.

(** [a - b] on two payload values. *)
Definition py_sub (a b : pyval) : result pyval :=
  x ← as_num a; y ← as_num b; ret (VNum (x - y)).

Definition price_metrics_of (info : payload) : result payload :=
  let current_price :=
    dget info "currentPrice" (dget info "regularMarketPrice" num0) in
  hi ← price_vs current_price info "fiftyTwoWeekHigh";
  lo ← price_vs current_price info "fiftyTwoWeekLow";
  ret ({[ "current_price" := current_price;
           "day_high" := dget info "dayHigh" num0;
           "day_low" := dget info "dayLow" num0;
           "week_52_high" := dget info "fiftyTwoWeekHigh" num0;
           "week_52_low" := dget info "fiftyTwoWeekLow" num0;
           "price_vs_52w_high" := hi;
           "price_vs_52w_low" := lo;
           "avg_volume" := dget info "averageVolume" num0;
           "market_cap" := dget info "marketCap" num0;
           "enterprise_value" := dget info "enterpriseValue" num0;
           "price_target_mean" := dget info "targetMeanPrice" num0;
           "price_target_high" := dget info "targetHighPrice" num0;
           "price_target_low" := dget info "targetLowPrice" num0 ]} : payload).

Definition ratio_metrics_of (info : payload) : payload :=
  {[ "pe_ratio" := dget info "trailingPE" num0;
     "forward_pe" := dget info "forwardPE" num0;
     "peg_ratio" := dget info "pegRatio" num0;
     "price_to_book" := dget info "priceToBook" num0;
     "price_to_sales" := dget info "priceToSalesTrailing12Months" num0;
     "ev_to_revenue" := dget info "enterpriseToRevenue" num0;
     "ev_to_ebitda" := dget info "enterpriseToEbitda" num0;
     "price_to_cash_flow" := dget info "priceToCashflow" num0;
     "book_value" := dget info "bookValue" num0;
     "price_to_book_ratio" := dget info "priceToBook" num0 ]}.

Definition growth_metrics_of (info : payload) : payload :=
  {[ "revenue_growth" := dget info "revenueGrowth" num0;
     "earnings_growth" := dget info "earningsGrowth" num0;
     "earnings_quarterly_growth" := dget info "earningsQuarterlyGrowth" num0;
     "revenue_quarterly_growth" := dget info "revenueQuarterlyGrowth" num0;
     "book_value_growth" := num0;
     "eps_forward" := dget info "forwardEps" num0;
     "eps_trailing" := dget info "trailingEps" num0 ]}.

Definition profitability_metrics_of (info : payload) : payload :=
  {[ "profit_margins" := dget info "profitMargins" num0;
     "operating_margins" := dget info "operatingMargins" num0;
     "gross_margins" := dget info "grossMargins" num0;
     "ebitda_margins" := dget info "ebitdaMargins" num0;
     "roe" := dget info "returnOnEquity" num0;
     "roa" := dget info "returnOnAssets" num0;
     "roic" := num0;
     "net_income_to_common" := dget info "netIncomeToCommon" num0;
     "diluted_eps" := dget info "trailingEps" num0 ]}.

Definition efficiency_metrics_of (info : payload) : result payload :=
  wc ← py_sub (dget info "totalCash" num0) (dget info "totalDebt" num0);
  ret ({[ "asset_turnover" := num0;
           "inventory_turnover" := num0;
           "receivables_turnover" := num0;
           "working_capital" := wc;
           "operating_cash_flow" := dget info "operatingCashflow" num0;
           "free_cash_flow" := dget info "freeCashflow" num0;
           "capex_to_revenue" := num0 ]} : payload).

Definition leverage_metrics_of (info : payload) : result payload :=
  nd ← py_sub (dget info "totalDebt" num0) (dget info "totalCash" num0);
  ret ({[ "total_debt" := dget info "totalDebt" num0;
           "total_cash" := dget info "totalCash" num0;
           "net_debt" := nd;
           "debt_to_equity" := dget info "debtToEquity" num0;
           "debt_to_assets" := num0;
           "interest_coverage" := num0;
           "debt_to_ebitda" := num0;
           "cash_per_share" := dget info "totalCashPerShare" num0 ]} : payload).

Definition liquidity_metrics_of (info : payload) : payload :=
  {[ "current_ratio" := dget info "currentRatio" num0;
     "quick_ratio" := dget info "quickRatio" num0;
     "cash_ratio" := num0;
     "operating_cash_flow_ratio" := num0;
     "working_capital_ratio" := num0 ]}.

Definition market_metrics_of (info : payload) : payload :=
  {[ "beta" := dget info "beta" num0;
     "shares_outstanding" := dget info "sharesOutstanding" num0;
     "shares_float" := dget info "floatShares" num0;
     "shares_short" := dget info "sharesShort" num0;
     "short_ratio" := dget info "shortRatio" num0;
     "short_percent_float" := dget info "shortPercentOfFloat" num0;
     "institutional_percent" := dget info "heldPercentInstitutions" num0;
     "insider_percent" := dget info "heldPercentInsiders" num0 ]}.

Definition dividend_metrics_of (info : payload) : payload :=
  {[ "dividend_yield" := dget info "dividendYield" num0;
     "dividend_rate" := dget info "dividendRate" num0;
     "payout_ratio" := dget info "payoutRatio" num0;
     "ex_dividend_date" := dget info "exDividendDate" VNone;
     "last_dividend_value" := dget info "lastDividendValue" num0;
     "five_year_avg_dividend_yield" := dget info "fiveYearAvgDividendYield" num0 ]}.

(** [(info.get('targetMeanPrice', 0) / current_price - 1)
     if current_price > 0 else 0] *)
Definition analyst_target_upside_of (info : payload) : result pyval :=
  let current_price :=
    dget info "currentPrice" (dget info "regularMarketPrice" num0) in
  c ← as_num current_price;
  if Rgtb c 0 then
    t ← as_num (dget info "targetMeanPrice" num0);
    q ← py_div t c;
    ret (VNum (q - 1))
  else ret num0.

Definition quality_metrics_of (info : payload) : result payload :=
  up ← analyst_target_upside_of info;
  ret ({[ "recommendation_mean" := dget info "recommendationMean" num0;
           "recommendation_key" := dget info "recommendationKey" (VStr "none");
           "number_of_analyst_opinions" := dget info "numberOfAnalystOpinions" num0;
           "analyst_target_upside" := up;
           "earnings_estimate_current_quarter" := num0;
           "earnings_estimate_next_quarter" := num0;
           "earnings_estimate_current_year" := num0;
           "earnings_estimate_next_year" := num0 ]} : payload).

(** Assign one category: [self.valuation_metrics[cat] = {...}], where
    building the dict may raise. *)
Definition assign (cat : string) (m : result payload) : py unit :=
  λ self,
    match m with
    | Ok d => (Ok tt, set_metrics cat d self)
    | Raise e => (Raise e, self)
    end.

Definition get_comprehensive_valuation_data (w : world) : py unit :=
  try_except
    (info ← lift (from_option Ok (Raise ConnectionError) (yf_valuation w));
     assign "price_metrics" (price_metrics_of info);;
     assign "ratio_metrics" (Ok (ratio_metrics_of info));;
     assign "growth_metrics" (Ok (growth_metrics_of info));;
     assign "profitability_metrics" (Ok (profitability_metrics_of info));;
     assign "efficiency_metrics" (efficiency_metrics_of info);;
     assign "leverage_metrics" (leverage_metrics_of info);;
     assign "liquidity_metrics" (Ok (liquidity_metrics_of info));;
     assign "market_metrics" (Ok (market_metrics_of info));;
     assign "dividend_metrics" (Ok (dividend_metrics_of info));;
     assign "quality_metrics" (quality_metrics_of info);;
     set_flag set_valuation_data_complete true;;
     set_flag set_yfinance_accessible true)
    (λ _, set_flag set_valuation_data_complete false).

(** ** [get_enhanced_financial_statements]

    Only its effect on the flags is kept: the statement figures it
    collects are returned to the caller for display and read by no
    score. *)

Definition get_enhanced_financial_statements (w : world) : py unit :=
  fmp ← flag fmp_api_accessible;
  (if fmp then
     match fmp_income_statement w with
     | Some (_ :: _) => set_flag set_financial_statements_available true
     | _ => ret tt
     end
   else ret tt);;
  av ← flag alpha_vantage_accessible;
  have ← flag financial_statements_available;
  if av && negb have && alpha_vantage_overview w
  then set_flag set_financial_statements_available true
  else ret tt.

(** ** Earnings-Trend Calculator: [get_goog_earnings_data] *)

Module Earnings.
Record t : Type := {
  cagr : pyval;
  quality : string;
  source : string
}.
End Earnings.

(** The loop over [reversed(fmp_data)]: the absolute net income of every
    year whose [netIncome] is truthy, oldest first. *)
Fixpoint earnings_loop (rows : list payload) (earnings_list : list R)
  : result (list R) :=
  match rows with
  | [] => Ok earnings_list
  | year_data :: rest =>
      let net_income := dget year_data "netIncome" num0 in
      let eps := dget year_data "eps" num0 in
      if truthy net_income then
        n ← as_num net_income;
        fmt eps;;
        earnings_loop rest (earnings_list ++ [Rabs n])
      else earnings_loop rest earnings_list
  end.

(** [(earnings_list[-1] / earnings_list[0]) ** (1/years) - 1] with
    [years = len(earnings_list) - 1]. *)
Definition cagr_of (earnings_list : list R) : result R :=
  let years := (length earnings_list - 1)%nat in
  ratio ← py_div (default 0%R (last earnings_list))
                 (default 0%R (head earnings_list));
  e ← py_div 1 (INR years);
  ret (Rpower ratio e - 1)%R.

Definition earnings_init : Earnings.t :=
  {| Earnings.cagr := num0;
     Earnings.quality := "UNKNOWN";
     Earnings.source := "NONE" |}.

(** Method 1: FMP API for historical earnings. *)
Definition earnings_fmp (w : world) (earnings_data : Earnings.t)
  : py Earnings.t :=
  fmp ← flag fmp_api_accessible;
  if fmp then
    match fmp_historical_earnings w with
    | Some fmp_data =>
        if bool_decide (2 ≤ length fmp_data)%nat then
          try_except
            (earnings_list ← lift (earnings_loop (reverse fmp_data) []);
             if bool_decide (2 ≤ length earnings_list)%nat then
               c ← lift (cagr_of earnings_list);
               set_flag set_earnings_data_available true;;
               ret {| Earnings.cagr := VNum c;
                       Earnings.quality := "HIGH";
                       Earnings.source := "FMP" |}
             else ret earnings_data)
            (λ _, ret earnings_data)
        else ret earnings_data
    | None => ret earnings_data
    end
  else ret earnings_data.

(** Method 2: analyst estimates (stored for display; sets a flag). *)
Definition earnings_estimates (w : world) : py unit :=
  fmp ← flag fmp_api_accessible;
  if fmp then
    match fmp_analyst_estimates w with
    | Some (_ :: _) => set_flag set_analyst_estimates_available true
    | _ => ret tt
    end
  else ret tt.

(** Method 3: yfinance fallback, then the static estimate. *)
Definition earnings_yfinance (w : world) (earnings_data : Earnings.t)
  : py Earnings.t :=
  yf ← flag yfinance_accessible;
  if py_eq0 (Earnings.cagr earnings_data) && yf then
    match yf_earnings w with
    | Some info =>
        let earnings_growth := dget info "earningsGrowth" num0 in
        if truthy earnings_growth then
          ret {| Earnings.cagr := earnings_growth;
                  Earnings.quality := "ESTIMATED";
                  Earnings.source := "YFINANCE" |}
        else
          ret {| Earnings.cagr := VNum 0.15;
                  Earnings.quality := "ESTIMATED_HISTORICAL";
                  Earnings.source := "FALLBACK" |}
    | None => ret earnings_data
    end
  else ret earnings_data.

Definition get_goog_earnings_data (w : world) : py Earnings.t :=
  earnings_data ← earnings_fmp w earnings_init;
  earnings_estimates w;;
  earnings_yfinance w earnings_data.

(** ** Revision-Trend Calculator: [get_goog_revisions] *)

Module Revision.
Record t : Type := {
  score : Z;
  direction : string;
  confidence : R;
  source : string
}.
End Revision.

Definition revision_init : Revision.t :=
  {| Revision.score := 0;
     Revision.direction := "STABLE";
     Revision.confidence := 0.5;
     Revision.source := "NONE" |}.

(** [df.sort_values('date', ascending=False)]; the order of rows with
    equal dates, which pandas leaves open, is the merge sort's. *)
Definition newer_first (a b : estimate_row) : Prop := (date b ≤ date a)%Z.

#[global] Instance newer_first_dec : RelDecision newer_first :=
  λ a b, decide (date b ≤ date a)%Z.

Definition sort_by_date_desc (rows : list estimate_row) : list estimate_row :=
  merge_sort newer_first rows.

(** The ladder applied to [revision_trend]. *)
Definition revision_ladder (revision_trend : R) : Revision.t :=
  let mk s d c :=
    {| Revision.score := s; Revision.direction := d;
       Revision.confidence := c; Revision.source := "FMP" |} in
  if Rgtb revision_trend 0.15 then mk 5 "VERY BULLISH" 0.95%R
  else if Rgtb revision_trend 0.10 then mk 4 "BULLISH" 0.9%R
  else if Rgtb revision_trend 0.05 then mk 3 "POSITIVE" 0.8%R
  else if Rgtb revision_trend 0.02 then mk 2 "SLIGHTLY POSITIVE" 0.7%R
  else if Rltb revision_trend (-0.15) then mk (-4) "VERY BEARISH" 0.95%R
  else if Rltb revision_trend (-0.10) then mk (-3) "BEARISH" 0.9%R
  else if Rltb revision_trend (-0.05) then mk (-2) "NEGATIVE" 0.8%R
  else mk 0 "STABLE" 0.6%R.

(** The body of the primary path's [try] block, from the DataFrame on.
    An exception raised here is what the [except] clause would catch. *)
Definition revisions_fmp_body (fmp_data : list estimate_row)
    (revision_data : Revision.t) : py Revision.t :=
  let df := sort_by_date_desc fmp_data in
  let recent_estimates := estimatedEpsAvg <$> take 3 df in
  if bool_decide (2 ≤ length recent_estimates)%nat then
    let latest := default 0%R (head recent_estimates) in
    let previous := default 0%R (last recent_estimates) in
    if negb (Reqb previous 0) then
      revision_trend ← lift (py_div (latest - previous) (Rabs previous));
      set_flag set_revision_data_available true;;
      ret (revision_ladder revision_trend)
    else ret revision_data
  else ret revision_data.

(** Method 1: FMP API comprehensive revisions. *)
Definition revisions_fmp (w : world) (revision_data : Revision.t)
  : py Revision.t :=
  fmp ← flag fmp_api_accessible;
  if fmp then
    match fmp_revision_analysis w with
    | Some fmp_data =>
        if bool_decide (3 ≤ length fmp_data)%nat then
          try_except (revisions_fmp_body fmp_data revision_data)
                     (λ _, ret revision_data)
        else ret revision_data
    | None => ret revision_data
    end
  else ret revision_data.

(** The three ladders of the fallback path. *)
Definition upside_component (upside : R) : Z :=
  if Rgtb upside 0.30 then 4
  else if Rgtb upside 0.20 then 3
  else if Rgtb upside 0.10 then 2
  else if Rgtb upside 0.05 then 1
  else if Rltb upside (-0.15) then -3
  else if Rltb upside (-0.05) then -1
  else 0.

Definition recommendation_component (recommendation_mean : R) : Z :=
  if Rltb recommendation_mean 2.0 then 2
  else if Rltb recommendation_mean 2.5 then 1
  else if Rgtb recommendation_mean 4.0 then -2
  else if Rgtb recommendation_mean 3.5 then -1
  else 0.

Definition analyst_confidence (num_analysts : R) : R :=
  if Rgtb num_analysts 20 then 0.8
  else if Rgtb num_analysts 10 then 0.7
  else 0.6.

Definition direction_of (score : Z) : string :=
  if bool_decide (4 ≤ score)%Z then "VERY BULLISH"
  else if bool_decide (2 ≤ score)%Z then "BULLISH"
  else if bool_decide (1 ≤ score)%Z then "POSITIVE"
  else if bool_decide (score ≤ -3)%Z then "VERY BEARISH"
  else if bool_decide (score ≤ -1)%Z then "BEARISH"
  else "STABLE".

(** The body of the fallback path's [try] block, given [stock.info]. *)
Definition revisions_yfinance_body (info : payload)
    (revision_data : Revision.t) : py Revision.t :=
  let recommendation_mean := dget info "recommendationMean" (VNum 3) in
  let target_mean_price := dget info "targetMeanPrice" num0 in
  let target_high_price := dget info "targetHighPrice" num0 in
  let target_low_price := dget info "targetLowPrice" num0 in
  let current_price :=
    dget info "currentPrice" (dget info "regularMarketPrice" num0) in
  let num_analysts := dget info "numberOfAnalystOpinions" num0 in
  rm ← lift (fmt recommendation_mean;; as_num recommendation_mean);
  lift (fmt target_low_price);;
  tm ← lift (fmt target_mean_price;; as_num target_mean_price);
  lift (fmt target_high_price);;
  cp ← lift (fmt current_price;; as_num current_price);
  if truthy target_mean_price && truthy current_price then
    upside ← lift (py_div (tm - cp) cp);
    let score_components :=
      [upside_component upside; recommendation_component rm] in
    na ← lift (as_num num_analysts);
    let score := foldr Z.add 0 score_components in
    set_flag set_revision_data_available true;;
    ret {| Revision.score := score;
            Revision.direction := direction_of score;
            Revision.confidence := analyst_confidence na;
            Revision.source := "YFINANCE" |}
  else ret revision_data.

(** Method 2: yfinance backup. *)
Definition revisions_yfinance (w : world) (revision_data : Revision.t)
  : py Revision.t :=
  yf ← flag yfinance_accessible;
  if bool_decide (Revision.score revision_data = 0) && yf then
    try_except
      (info ← lift (from_option Ok (Raise ConnectionError) (yf_revisions w));
       revisions_yfinance_body info revision_data)
      (λ _, ret revision_data)
  else ret revision_data.

Definition get_goog_revisions (w : world) : py Revision.t :=
  revision_data ← revisions_fmp w revision_init;
  revisions_yfinance w revision_data.

(** ** Macro Environment Calculator: [get_goog_macro_analysis] *)

Module Macro.
Record t : Type := {
  score : Z;
  confidence : R
}.
End Macro.

Definition sector_tickers : list string :=
  ["QQQ"; "SPY"; "XLK"; "FTEC"; "XLC"; "FCOM"].

(** [(hist['Close'].iloc[-1] / hist['Close'].iloc[0]) - 1]: pandas
    arithmetic, which does not raise. *)
Definition returns_of (closes : list R) : R :=
  (default 0 (last closes) / default 0 (head closes) - 1)%R.

(** Scoring based on performance: only XLC and QQQ carry a ladder. *)
Definition sector_score (ticker : string) (returns_3m : R) : Z :=
  if String.eqb ticker "XLC" then
    if Rgtb returns_3m 0.20 then 3
    else if Rgtb returns_3m 0.10 then 2
    else if Rgtb returns_3m 0.05 then 1
    else if Rltb returns_3m (-0.15) then -3
    else if Rltb returns_3m (-0.05) then -1
    else 0
  else if String.eqb ticker "QQQ" then
    if Rgtb returns_3m 0.15 then 2
    else if Rgtb returns_3m 0.05 then 1
    else if Rltb returns_3m (-0.10) then -1
    else 0
  else 0.

(** One iteration of the loop over the sector ETFs, with its own
    [try]/[except]: an empty history or a failed lookup adds nothing. *)
Definition sector_contribution (feed : etf_feed) (ticker : string) : Z :=
  match hist_3mo feed with
  | Some (c :: cs) =>
      match hist_1y feed with
      | Some _ => sector_score ticker (returns_of (c :: cs))
      | None => 0
      end
  | _ => 0
  end.

Definition google_factors : list (string * Z) :=
  [ ("ai_leadership", 3); ("search_dominance", 2); ("cloud_growth", 2);
    ("regulatory_risk", -2); ("ad_market_strength", 2);
    ("youtube_growth", 2); ("ai_competition", -1);
    ("privacy_regulations", -1); ("waymo_opportunity", 1);
    ("quantum_computing", 1) ].

(** The economic indicators fetched from FRED are recorded for display
    and change neither the score nor a flag; they are left out. *)
Definition get_goog_macro_analysis (w : world) : py Macro.t :=
  let score := 0 in
  let score :=
    foldl (λ score ticker, score + sector_contribution (etf w ticker) ticker)
          score sector_tickers in
  let score := foldl (λ score factor, score + factor.2) score google_factors in
  set_flag set_macro_data_available true;;
  ret {| Macro.score := score; Macro.confidence := 0.8 |}.

(** ** Management Quality Calculator: [analyze_goog_ceo] *)

Module Ceo.
Record t : Type := {
  name : string;
  score : Z
}.
End Ceo.

Definition vision_score (vision : Z) : Z :=
  if bool_decide (9 ≤ vision)%Z then 4
  else if bool_decide (7 ≤ vision)%Z then 3
  else if bool_decide (5 ≤ vision)%Z then 1
  else -1.

Definition execution_score (execution : Z) : Z :=
  if bool_decide (9 ≤ execution)%Z then 4
  else if bool_decide (7 ≤ execution)%Z then 3
  else if bool_decide (5 ≤ execution)%Z then 1
  else -2.

Definition roe_score (roe : R) : Z :=
  if Rgtb roe 0.15 then 2
  else if Rgtb roe 0.10 then 1
  else if Rltb roe 0.05 then -1
  else 0.

Definition margin_score (profit_margins : R) : Z :=
  if Rgtb profit_margins 0.20 then 1
  else if Rltb profit_margins 0.10 then -1
  else 0.

(** Performance validation with company metrics: the [try] body. *)
Definition performance_score_of (info : payload) : result Z :=
  let roe := dget info "returnOnEquity" num0 in
  let profit_margins := dget info "profitMargins" num0 in
  let revenue_growth := dget info "revenueGrowth" num0 in
  r ← (fmt roe;; as_num roe);
  p ← (fmt profit_margins;; as_num profit_margins);
  fmt revenue_growth;;
  ret (roe_score r + margin_score p).

Definition google_specific_factors : list (string * string * Z) :=
  [ ("✅", "Deep Google culture understanding (20+ years)", 1);
    ("✅", "Engineering credibility and technical depth", 1);
    ("✅", "Strong product development track record", 1);
    ("✅", "AI vision and research investment focus", 1);
    ("✅", "Successful platform ecosystem management", 1);
    ("⚠️", "Regulatory navigation challenges", 0);
    ("✅", "Strong financial performance delivery", 1) ].

(** The score accumulated before the final normalisation. *)
Definition ceo_accumulated_score (ceo_data : ceo_entry) (performance_score : Z)
  : Z :=
  let score := 0 in
  let score := if negb (was_cfo ceo_data) then score + 4 else score - 2 in
  let total_background_score :=
    (if technical ceo_data then 2 else 0)
    + (if strategic ceo_data then 1 else 0)
    + (if founder ceo_data then 2 else 0)
    + 2 in
  let score := score + total_background_score in
  let score := score + vision_score (vision ceo_data) in
  let score := score + execution_score (execution ceo_data) in
  let score := score + performance_score in
  foldl (λ score factor, score + factor.2) score google_specific_factors.

(** [final_score = min(max(ceo_analysis['score'], 0), 15)] *)
Definition final_score (score : Z) : Z := Z.min (Z.max score 0) 15.

Definition ceo_performance (w : world) : py Z :=
  yf ← flag yfinance_accessible;
  if yf then
    try_except
      (info ← lift (from_option Ok (Raise ConnectionError) (yf_ceo w));
       lift (performance_score_of info))
      (λ _, ret 0)
  else ret 0.

Definition analyze_goog_ceo (w : world) : py Ceo.t :=
  self ← get_self;
  ceo_data ← lift (from_option Ok (Raise KeyError)
                                (ceo_database self !! "GOOG"));
  performance_score ← ceo_performance w;
  ret {| Ceo.name := name ceo_data;
         Ceo.score :=
           final_score (ceo_accumulated_score ceo_data performance_score) |}.

(** ** Conviction Scorer: [calculate_goog_conviction_score] *)

(** *** Valuation (25 points max) *)

Definition pe_compression_score (pe_compression : R) : Z :=
  if Rgtb pe_compression 0.25 then 10
  else if Rgtb pe_compression 0.20 then 8
  else if Rgtb pe_compression 0.15 then 6
  else if Rgtb pe_compression 0.10 then 4
  else if Rgtb pe_compression 0.05 then 2
  else 0.

Definition peg_score (peg_ratio : R) : Z :=
  if Rltb peg_ratio 0.5 then 8
  else if Rltb peg_ratio 0.8 then 6
  else if Rltb peg_ratio 1.2 then 4
  else if Rltb peg_ratio 1.8 then 2
  else if Rgtb peg_ratio 2.5 then -2
  else 0.

Definition target_upside_score (target_upside : R) : Z :=
  if negb (Reqb target_upside 0) then
    if Rgtb target_upside 0.30 then 4
    else if Rgtb target_upside 0.15 then 2
    else if Rltb target_upside (-0.10) then -2
    else 0
  else 0.

Definition week52_score (price_vs_52w_high : R) : Z :=
  if Rltb price_vs_52w_high (-0.30) then 3
  else if Rltb price_vs_52w_high (-0.15) then 1
  else 0.

Definition valuation_score_of (price_metrics ratio_metrics : payload)
    (earnings_cagr : pyval) : result Z :=
  let valuation_score := 0 in
  (* Factor 1: forward P/E vs trailing P/E *)
  let forward_pe := dget ratio_metrics "forward_pe" num0 in
  let trailing_pe := dget ratio_metrics "pe_ratio" num0 in
  f ← (fmt forward_pe;; as_num forward_pe);
  t ← (fmt trailing_pe;; as_num trailing_pe);
  valuation_score ←
    (if Rgtb f 0 && Rgtb t 0 then
       pe_compression ← py_div (t - f) t;
       ret (valuation_score + pe_compression_score pe_compression)
     else ret valuation_score);
  (* Factor 2: PEG ratio *)
  let peg_ratio := dget ratio_metrics "peg_ratio" num0 in
  peg_ratio ←
    (if py_eq0 peg_ratio && Rgtb f 0 && negb (py_eq0 earnings_cagr) then
       c ← as_num earnings_cagr;
       q ← py_div f (Rabs c * 100);
       ret (VNum q)
     else ret peg_ratio);
  p ← (fmt peg_ratio;; as_num peg_ratio);
  c ← as_num earnings_cagr;
  let valuation_score :=
    if Rgtb c 0 && Rgtb p 0 then valuation_score + peg_score p
    else if Rltb c 0 then valuation_score - 3
    else valuation_score in
  (* Factor 3: price target *)
  cp ← as_num (dget price_metrics "current_price" num0);
  target_upside ←
    (if Rgtb cp 0 then
       tm ← as_num (dget price_metrics "price_target_mean" num0);
       cp1 ← as_num (dget price_metrics "current_price" (VNum 1));
       q ← py_div tm cp1;
       ret (q - 1)%R
     else ret 0%R);
  let valuation_score := valuation_score + target_upside_score target_upside in
  (* Factor 4: 52-week positioning *)
  price_vs_52w_high ← as_num (dget price_metrics "price_vs_52w_high" num0);
  ret (valuation_score + week52_score price_vs_52w_high).

(** *** Growth quality (25 points max) *)

Definition earnings_growth_score (earnings_cagr : R) : Z :=
  if Rgtb earnings_cagr 0.40 then 12
  else if Rgtb earnings_cagr 0.30 then 10
  else if Rgtb earnings_cagr 0.20 then 8
  else if Rgtb earnings_cagr 0.15 then 6
  else if Rgtb earnings_cagr 0.10 then 4
  else if Rgtb earnings_cagr 0 then 2
  else -4.

Definition revenue_growth_score (revenue_growth : R) : Z :=
  if Rgtb revenue_growth 0.30 then 8
  else if Rgtb revenue_growth 0.20 then 6
  else if Rgtb revenue_growth 0.15 then 4
  else if Rgtb revenue_growth 0.10 then 3
  else if Rgtb revenue_growth 0.05 then 2
  else if Rgtb revenue_growth 0 then 1
  else -3.

Definition profit_margin_score (profit_margins : R) : Z :=
  if Rgtb profit_margins 0.30 then 5
  else if Rgtb profit_margins 0.20 then 4
  else if Rgtb profit_margins 0.15 then 3
  else if Rgtb profit_margins 0.10 then 2
  else if Rgtb profit_margins 0.05 then 1
  else 0.

Definition growth_score_of (growth_metrics profitability_metrics : payload)
    (earnings_cagr : pyval) : result Z :=
  let growth_score := 0 in
  c ← (fmt earnings_cagr;; as_num earnings_cagr);
  let growth_score := growth_score + earnings_growth_score c in
  let revenue_growth := dget growth_metrics "revenue_growth" num0 in
  rg ← (fmt revenue_growth;; as_num revenue_growth);
  let growth_score := growth_score + revenue_growth_score rg in
  let profit_margins := dget profitability_metrics "profit_margins" num0 in
  let operating_margins := dget profitability_metrics "operating_margins" num0 in
  let gross_margins := dget profitability_metrics "gross_margins" num0 in
  pm ← (fmt profit_margins;; as_num profit_margins);
  fmt operating_margins;;
  fmt gross_margins;;
  ret (growth_score + profit_margin_score pm).

(** *** Management (25 points max) *)

(** [int(x)] on a float: truncation towards zero. *)
Definition py_int (x : R) : Z :=
  if Rle_dec 0 x then Int_part x else (- Int_part (- x))%Z.

(** [min(int(ceo_analysis['score'] * 1.67), 25)] *)
Definition management_score_of (ceo_score : Z) : Z :=
  Z.min (py_int (IZR ceo_score * 1.67)) 25.

(** *** Consensus (25 points max) *)

Definition revision_points (revision_score : Z) : Z :=
  if bool_decide (5 ≤ revision_score)%Z then 15
  else if bool_decide (4 ≤ revision_score)%Z then 12
  else if bool_decide (3 ≤ revision_score)%Z then 10
  else if bool_decide (2 ≤ revision_score)%Z then 7
  else if bool_decide (1 ≤ revision_score)%Z then 4
  else if bool_decide (revision_score ≤ -4)%Z then -8
  else if bool_decide (revision_score ≤ -3)%Z then -5
  else if bool_decide (revision_score ≤ -2)%Z then -3
  else 0.

(** [min(max(macro_score * 1.5, -8), 10)] *)
Definition macro_points (macro_score : Z) : R :=
  Rmin (Rmax (IZR macro_score * 1.5) (-8)) 10.

(** *** The result *)

Module Sub.
Record t : Type := {
  score : R;
  max : Z
}.
End Sub.

(** [enhanced_data]; [valuation_metrics] and [data_flags] are the
    analyzer's own objects, here as they stand when the method returns.
    The statement figures ([financial_data]) are left out. *)
Module Enhanced.
Record t : Type := {
  earnings_data : Earnings.t;
  revision_data : Revision.t;
  ceo_analysis : Ceo.t;
  macro_data : Macro.t;
  valuation_metrics : gmap string payload;
  data_flags : flags
}.
End Enhanced.

(** [(total_score, detailed_breakdown, enhanced_data)]; the empty dict
    returned for [enhanced_data] on failure is [None]. *)
Abbreviation conviction := (R * gmap string Sub.t * option Enhanced.t)%type.

(** [self.valuation_metrics[cat]] *)
Definition metrics (self : analyzer) (cat : string) : result payload :=
  from_option Ok (Raise KeyError) (valuation_metrics self !! cat).

(** The body of the method's [try] block. *)
Definition conviction_body (w : world) : py conviction :=
  info ← lift (from_option Ok (Raise ConnectionError) (yf_quote w));
  lift (fmt (dget info "currentPrice" (dget info "regularMarketPrice" num0)));;
  lift (as_num (dget info "marketCap" num0));;
  (* valuation *)
  earnings_data ← get_goog_earnings_data w;
  let earnings_cagr := Earnings.cagr earnings_data in
  self ← get_self;
  price_metrics ← lift (metrics self "price_metrics");
  ratio_metrics ← lift (metrics self "ratio_metrics");
  valuation_score ←
    lift (valuation_score_of price_metrics ratio_metrics earnings_cagr);
  (* growth *)
  growth_metrics ← lift (metrics self "growth_metrics");
  profitability_metrics ← lift (metrics self "profitability_metrics");
  growth_score ←
    lift (growth_score_of growth_metrics profitability_metrics earnings_cagr);
  (* management *)
  ceo_analysis ← analyze_goog_ceo w;
  let management_score := management_score_of (Ceo.score ceo_analysis) in
  (* consensus *)
  let consensus_score := 0%R in
  revision_data ← get_goog_revisions w;
  let revision_score := Revision.score revision_data in
  let consensus_score :=
    (consensus_score + IZR (revision_points revision_score))%R in
  macro_data ← get_goog_macro_analysis w;
  let macro_score := Macro.score macro_data in
  let consensus_score := (consensus_score + macro_points macro_score)%R in
  (* total *)
  let total_score :=
    (IZR valuation_score + IZR growth_score + IZR management_score
     + consensus_score)%R in
  let detailed_breakdown : gmap string Sub.t :=
    {[ "valuation" := {| Sub.score := IZR valuation_score; Sub.max := 25 |};
       "growth" := {| Sub.score := IZR growth_score; Sub.max := 25 |};
       "management" := {| Sub.score := IZR management_score; Sub.max := 25 |};
       "consensus" := {| Sub.score := consensus_score; Sub.max := 25 |} ]} in
  self ← get_self;
  let enhanced_data :=
    {| Enhanced.earnings_data := earnings_data;
       Enhanced.revision_data := revision_data;
       Enhanced.ceo_analysis := ceo_analysis;
       Enhanced.macro_data := macro_data;
       Enhanced.valuation_metrics := valuation_metrics self;
       Enhanced.data_flags := data_flags self |} in
  ret (total_score, detailed_breakdown, Some enhanced_data).

Definition calculate_goog_conviction_score (w : world) : py conviction :=
  get_comprehensive_valuation_data w;;
  get_enhanced_financial_statements w;;
  try_except (conviction_body w) (λ _, ret (0%R, ∅, None)).

(** ** [run_complete_enhanced_analysis] *)

Module Quality.
Record t : Type := {
  api_success_rate : R;
  data_completeness : R;
  confidence : R
}.
End Quality.

Module Run.
Record t : Type := {
  conviction_score : R;
  recommendation : recommendation;
  breakdown : gmap string Sub.t;
  enhanced_data : option Enhanced.t;
  data_quality : Quality.t
}.
End Run.

(** The report section "ENHANCED DATA INSIGHTS" and the metrics summary:
    what can raise while they are printed.  With an empty
    [enhanced_data] the flag count divides by [len(data_flags)], which
    is zero. *)
Definition fmt_metrics (vm : gmap string payload) (cat : string)
    (keys : list string) : result unit :=
  match vm !! cat with
  | Some m =>
      if truthy_payload m
      then foldr (λ k rest, fmt (dget m k num0);; rest) (Ok tt) keys
      else Ok tt
  | None => Ok tt
  end.

Definition display_insights (enhanced_data : option Enhanced.t) : result unit :=
  match enhanced_data with
  | None => Raise ZeroDivisionError
  | Some e =>
      fmt (Earnings.cagr (Enhanced.earnings_data e));;
      fmt_metrics (Enhanced.valuation_metrics e) "ratio_metrics"
        ["forward_pe"; "peg_ratio"; "price_to_book"; "ev_to_revenue"];;
      fmt_metrics (Enhanced.valuation_metrics e) "profitability_metrics"
        ["roe"; "profit_margins"; "operating_margins"]
  end.

(** The section "ENHANCED STRATEGY PERSPECTIVE" indexes the breakdown. *)
Definition display_perspective (conviction_score : R)
    (breakdown : gmap string Sub.t) : result unit :=
  let need k := from_option (λ _, Ok tt) (Raise KeyError) (breakdown !! k) in
  if Rgeb conviction_score 70 then
    need "valuation";; need "growth";; need "management"
  else if Rgeb conviction_score 60 then
    need "valuation";; need "growth"
  else
    need "growth";; need "consensus";; need "valuation".

Definition b2r (b : bool) : R := if b then 1 else 0.

Definition data_quality_of (f : flags) : Quality.t :=
  let api_success_rate :=
    ((b2r (fmp_api_accessible f) + b2r (alpha_vantage_accessible f)
      + b2r (fred_api_accessible f) + b2r (yfinance_accessible f))
     / 4 * 100)%R in
  let data_completeness :=
    ((b2r (earnings_data_available f) + b2r (revision_data_available f)
      + b2r (macro_data_available f) + b2r (valuation_data_complete f))
     / 4 * 100)%R in
  {| Quality.api_success_rate := api_success_rate;
     Quality.data_completeness := data_completeness;
     Quality.confidence := Rmin api_success_rate data_completeness |}.

Definition run_complete_enhanced_analysis (w : world) : py Run.t :=
  test_api_connections w;;
  r ← calculate_goog_conviction_score w;
  let '(conviction_score, breakdown, enhanced_data) := r in
  let recommendation := get_position_recommendation conviction_score in
  lift (display_insights enhanced_data);;
  lift (display_perspective conviction_score breakdown);;
  self ← get_self;
  ret {| Run.conviction_score := conviction_score;
         Run.recommendation := recommendation;
         Run.breakdown := breakdown;
         Run.enhanced_data := enhanced_data;
         Run.data_quality := data_quality_of (data_flags self) |}.

(** ** Vocabulary of the statements *)

(** Equality of idealised floats is decidable (classically). *)
#[global] Instance R_eq_dec : EqDecision R := Req_dec_T.

(** [self.valuation_metrics[cat][field]], [None] when either key is
    missing. *)
Definition metric (self : analyzer) (cat field : string) : option pyval :=
  valuation_metrics self !! cat ≫= λ m : payload, m !! field.

(** The metrics that the normalizer reads with [info.get(key, 0)], as
    (category, metric, backing field); the two relative-price metrics
    are listed with the field that guards them. *)
Definition backed_fields : list (string * string * string) :=
  [ ("price_metrics", "day_high", "dayHigh");
    ("price_metrics", "day_low", "dayLow");
    ("price_metrics", "week_52_high", "fiftyTwoWeekHigh");
    ("price_metrics", "week_52_low", "fiftyTwoWeekLow");
    ("price_metrics", "price_vs_52w_high", "fiftyTwoWeekHigh");
    ("price_metrics", "price_vs_52w_low", "fiftyTwoWeekLow");
    ("price_metrics", "avg_volume", "averageVolume");
    ("price_metrics", "market_cap", "marketCap");
    ("price_metrics", "enterprise_value", "enterpriseValue");
    ("price_metrics", "price_target_mean", "targetMeanPrice");
    ("price_metrics", "price_target_high", "targetHighPrice");
    ("price_metrics", "price_target_low", "targetLowPrice");
    ("ratio_metrics", "pe_ratio", "trailingPE");
    ("ratio_metrics", "forward_pe", "forwardPE");
    ("ratio_metrics", "peg_ratio", "pegRatio");
    ("ratio_metrics", "price_to_book", "priceToBook");
    ("ratio_metrics", "price_to_sales", "priceToSalesTrailing12Months");
    ("ratio_metrics", "ev_to_revenue", "enterpriseToRevenue");
    ("ratio_metrics", "ev_to_ebitda", "enterpriseToEbitda");
    ("ratio_metrics", "price_to_cash_flow", "priceToCashflow");
    ("ratio_metrics", "book_value", "bookValue");
    ("ratio_metrics", "price_to_book_ratio", "priceToBook");
    ("growth_metrics", "revenue_growth", "revenueGrowth");
    ("growth_metrics", "earnings_growth", "earningsGrowth");
    ("growth_metrics", "earnings_quarterly_growth", "earningsQuarterlyGrowth");
    ("growth_metrics", "revenue_quarterly_growth", "revenueQuarterlyGrowth");
    ("growth_metrics", "eps_forward", "forwardEps");
    ("growth_metrics", "eps_trailing", "trailingEps");
    ("profitability_metrics", "profit_margins", "profitMargins");
    ("profitability_metrics", "operating_margins", "operatingMargins");
    ("profitability_metrics", "gross_margins", "grossMargins");
    ("profitability_metrics", "ebitda_margins", "ebitdaMargins");
    ("profitability_metrics", "roe", "returnOnEquity");
    ("profitability_metrics", "roa", "returnOnAssets");
    ("profitability_metrics", "net_income_to_common", "netIncomeToCommon");
    ("profitability_metrics", "diluted_eps", "trailingEps");
    ("efficiency_metrics", "operating_cash_flow", "operatingCashflow");
    ("efficiency_metrics", "free_cash_flow", "freeCashflow");
    ("leverage_metrics", "total_debt", "totalDebt");
    ("leverage_metrics", "total_cash", "totalCash");
    ("leverage_metrics", "debt_to_equity", "debtToEquity");
    ("leverage_metrics", "cash_per_share", "totalCashPerShare");
    ("liquidity_metrics", "current_ratio", "currentRatio");
    ("liquidity_metrics", "quick_ratio", "quickRatio");
    ("market_metrics", "beta", "beta");
    ("market_metrics", "shares_outstanding", "sharesOutstanding");
    ("market_metrics", "shares_float", "floatShares");
    ("market_metrics", "shares_short", "sharesShort");
    ("market_metrics", "short_ratio", "shortRatio");
    ("market_metrics", "short_percent_float", "shortPercentOfFloat");
    ("market_metrics", "institutional_percent", "heldPercentInstitutions");
    ("market_metrics", "insider_percent", "heldPercentInsiders");
    ("dividend_metrics", "dividend_yield", "dividendYield");
    ("dividend_metrics", "dividend_rate", "dividendRate");
    ("dividend_metrics", "payout_ratio", "payoutRatio");
    ("dividend_metrics", "last_dividend_value", "lastDividendValue");
    ("dividend_metrics", "five_year_avg_dividend_yield", "fiveYearAvgDividendYield");
    ("quality_metrics", "recommendation_mean", "recommendationMean");
    ("quality_metrics", "number_of_analyst_opinions", "numberOfAnalystOpinions") ].

(** The metrics that the normalizer sets to the literal 0. *)
Definition constant_fields : list (string * string) :=
  [ ("growth_metrics", "book_value_growth");
    ("profitability_metrics", "roic");
    ("efficiency_metrics", "asset_turnover");
    ("efficiency_metrics", "inventory_turnover");
    ("efficiency_metrics", "receivables_turnover");
    ("efficiency_metrics", "capex_to_revenue");
    ("leverage_metrics", "debt_to_assets");
    ("leverage_metrics", "interest_coverage");
    ("leverage_metrics", "debt_to_ebitda");
    ("liquidity_metrics", "cash_ratio");
    ("liquidity_metrics", "operating_cash_flow_ratio");
    ("liquidity_metrics", "working_capital_ratio");
    ("quality_metrics", "earnings_estimate_current_quarter");
    ("quality_metrics", "earnings_estimate_next_quarter");
    ("quality_metrics", "earnings_estimate_current_year");
    ("quality_metrics", "earnings_estimate_next_year") ].

(** The analyzer after a normalizer run in which nothing raised. *)
Definition normalized (info pm em lm qm : payload) (self : analyzer)
  : analyzer :=
  with_flags (set_yfinance_accessible true)
    (with_flags (set_valuation_data_complete true)
       (set_metrics "quality_metrics" qm
          (set_metrics "dividend_metrics" (dividend_metrics_of info)
             (set_metrics "market_metrics" (market_metrics_of info)
                (set_metrics "liquidity_metrics" (liquidity_metrics_of info)
                   (set_metrics "leverage_metrics" lm
                      (set_metrics "efficiency_metrics" em
                         (set_metrics "profitability_metrics"
                            (profitability_metrics_of info)
                            (set_metrics "growth_metrics"
                               (growth_metrics_of info)
                               (set_metrics "ratio_metrics"
                                  (ratio_metrics_of info)
                                  (set_metrics "price_metrics" pm
                                     self))))))))))).

(** The breakdown returned by a computation that did not raise. *)
Definition breakdown_of (v g m : Z) (c : R) : gmap string Sub.t :=
  {[ "valuation" := {| Sub.score := IZR v; Sub.max := 25 |};
     "growth" := {| Sub.score := IZR g; Sub.max := 25 |};
     "management" := {| Sub.score := IZR m; Sub.max := 25 |};
     "consensus" := {| Sub.score := c; Sub.max := 25 |} ]}.

(** The sub-score a breakdown records under a key, and their sum. *)
Definition sub_score (b : gmap string Sub.t) (k : string) : R :=
  from_option Sub.score 0%R (b !! k).

Definition breakdown_sum (b : gmap string Sub.t) : R :=
  (sub_score b "valuation" + sub_score b "growth"
   + sub_score b "management" + sub_score b "consensus")%R.

(** ** Sample inputs *)

Definition no_feed : etf_feed := {| hist_3mo := None; hist_1y := None |}.

(** Only yfinance answers, always with the same payload ([None]: it
    raises); the three keyed providers reject the request. *)
Definition yf_world (info : option payload) : world :=
  {| yf_test := info; yf_valuation := info; yf_quote := info;
     yf_earnings := info; yf_revisions := info; yf_ceo := info;
     fmp_test := false; alpha_vantage_test := false; fred_test := false;
     fmp_income_statement := None; alpha_vantage_overview := false;
     fmp_historical_earnings := None; fmp_analyst_estimates := None;
     fmp_revision_analysis := None; etf := λ _, no_feed |}.

(** Every adapter unavailable. *)
Definition offline : world := yf_world None.

(** yfinance answers with an empty payload. *)
Definition quiet : world := yf_world (Some ∅).

(** Only FMP answers. *)
Definition fmp_world (income : option (list payload))
    (estimates : option (list estimate_row)) : world :=
  {| yf_test := None; yf_valuation := None; yf_quote := None;
     yf_earnings := None; yf_revisions := None; yf_ceo := None;
     fmp_test := true; alpha_vantage_test := false; fred_test := false;
     fmp_income_statement := income; alpha_vantage_overview := false;
     fmp_historical_earnings := income; fmp_analyst_estimates := None;
     fmp_revision_analysis := estimates; etf := λ _, no_feed |}.

Definition yf_only : analyzer := with_flags (set_yfinance_accessible true) init.
Definition fmp_only : analyzer := with_flags (set_fmp_api_accessible true) init.

Definition bullish_info : payload :=
  {[ "targetMeanPrice" := VNum 140; "currentPrice" := VNum 100;
     "recommendationMean" := VNum 1.5 ]}.

Definition bullish : world := yf_world (Some bullish_info).

Definition bearish_info : payload :=
  {[ "targetMeanPrice" := VNum 80; "currentPrice" := VNum 100;
     "recommendationMean" := VNum 4.5 ]}.

Definition bearish : world := yf_world (Some bearish_info).

Definition best_info : payload :=
  {[ "symbol" := VStr "GOOG";
     "currentPrice" := VNum 100;
     "fiftyTwoWeekHigh" := VNum 200;
     "targetMeanPrice" := VNum 200;
     "trailingPE" := VNum 40;
     "forwardPE" := VNum 20;
     "pegRatio" := VNum 0.4;
     "earningsGrowth" := VNum 0.5;
     "revenueGrowth" := VNum 0.4;
     "profitMargins" := VNum 0.35;
     "recommendationMean" := VNum 1.5 ]}.

Definition best : world := yf_world (Some best_info).

Definition income_row (net_income : R) : payload :=
  {[ "netIncome" := VNum net_income ]}.

(** A fresh analyzer whose database holds another entry for GOOG. *)
Definition with_ceo (ceo_data : ceo_entry) : analyzer :=
  {| data_flags := init_flags;
     valuation_metrics := init_metrics;
     ceo_database := {[ "GOOG" := ceo_data ]} |}.

(** An entry whose criteria add up to 20, and one whose criteria add up
    to 3. *)
Definition strong_ceo : ceo_entry :=
  {| name := "Strong"; was_cfo := false; background := "engineer_product";
     vision := 9; execution := 5; founder := false; technical := true;
     strategic := true; notes := "Exceptional vision, adequate execution." |}.

Definition former_cfo : ceo_entry :=
  {| name := "Former"; was_cfo := true; background := "finance";
     vision := 3; execution := 3; founder := false; technical := false;
     strategic := false; notes := "Former CFO, weak vision and execution." |}.

(** Income statements as FMP lists them, newest first. *)
Definition two_years : world :=
  fmp_world (Some [income_row 121; income_row 100]) None.
Definition three_years : world :=
  fmp_world (Some [income_row 121; income_row 110; income_row 100]) None.

(** Three estimate snapshots whose oldest EPS average is zero. *)
Definition flat_estimates : list estimate_row :=
  [ {| date := 1; estimatedEpsAvg := 0 |};
    {| date := 3; estimatedEpsAvg := 2 |};
    {| date := 2; estimatedEpsAvg := 1.5 |} ].

Definition zero_previous : world := fmp_world None (Some flat_estimates).
(** ** [display_comprehensive_data_flags]

    The report prints, for every flag, whether it is set; for every
    category, the share of its metrics that differ from 0 with a status
    mark; and the share of the flags that are set.  The values it
    prints are kept, the text is not. *)









Module Report.
Record t : Type := {
  api_flags : list (string * bool);
  data_categories : list (string * bool);
  coverage : list (string * string * R);
  overall : R
}.
End Report.



(** ** Vocabulary of the invariants *)










(** ** Further sample inputs *)















(** * Properties *)

(** ** Reasoning about comparisons *)

Lemma Rgtb_true x y : (y < x)%R → Rgtb x y = true.
Proof. intros H. unfold Rgtb. destruct (Rlt_dec y x); [done | contradiction]. Qed.

Lemma Rgtb_false x y : (x <= y)%R → Rgtb x y = false.
Proof. intros H. unfold Rgtb. destruct (Rlt_dec y x); [lra | done]. Qed.

Lemma Rltb_true x y : (x < y)%R → Rltb x y = true.
Proof. intros H. unfold Rltb. destruct (Rlt_dec x y); [done | contradiction]. Qed.

Lemma Rltb_false x y : (y <= x)%R → Rltb x y = false.
Proof. intros H. unfold Rltb. destruct (Rlt_dec x y); [lra | done]. Qed.

Lemma Rgeb_true x y : (y <= x)%R → Rgeb x y = true.
Proof. intros H. unfold Rgeb. destruct (Rle_dec y x); [done | contradiction]. Qed.

Lemma Rgeb_false x y : (x < y)%R → Rgeb x y = false.
Proof. intros H. unfold Rgeb. destruct (Rle_dec y x); [lra | done]. Qed.

Lemma Reqb_true x y : x = y → Reqb x y = true.
Proof. intros H. unfold Reqb. destruct (Req_dec_T x y); [done | contradiction]. Qed.

Lemma Reqb_false x y : x ≠ y → Reqb x y = false.
Proof. intros H. unfold Reqb. destruct (Req_dec_T x y); [contradiction | done]. Qed.

(** Case analysis on the next comparison in the goal. *)
Ltac case_cmp :=
  match goal with
  | |- context [Rgtb ?x ?y] =>
      destruct (Rlt_dec y x);
      [rewrite (Rgtb_true x y) by assumption | rewrite (Rgtb_false x y) by lra]
  | |- context [Rltb ?x ?y] =>
      destruct (Rlt_dec x y);
      [rewrite (Rltb_true x y) by assumption | rewrite (Rltb_false x y) by lra]
  | |- context [Rgeb ?x ?y] =>
      destruct (Rle_dec y x);
      [rewrite (Rgeb_true x y) by assumption | rewrite (Rgeb_false x y) by lra]
  | |- context [Reqb ?x ?y] =>
      destruct (Req_dec_T x y);
      [rewrite (Reqb_true x y) by assumption
      | rewrite (Reqb_false x y) by assumption]
  end.

(** Settle the comparisons whose outcome linear arithmetic decides. *)
Ltac decide_cmp :=
  repeat match goal with
  | |- context [Rgtb ?x ?y] =>
      first [rewrite (Rgtb_true x y) by lra | rewrite (Rgtb_false x y) by lra]
  | |- context [Rltb ?x ?y] =>
      first [rewrite (Rltb_true x y) by lra | rewrite (Rltb_false x y) by lra]
  | |- context [Rgeb ?x ?y] =>
      first [rewrite (Rgeb_true x y) by lra | rewrite (Rgeb_false x y) by lra]
  | |- context [Reqb ?x ?y] =>
      first [rewrite (Reqb_true x y) by lra | rewrite (Reqb_false x y) by lra]
  end.

Ltac decide_bool :=
  match goal with
  | |- context [bool_decide ?P] =>
      first [ rewrite (bool_decide_eq_true_2 P) by (cbn; first [done | lia])
            | rewrite (bool_decide_eq_false_2 P) by (cbn; first [done | lia]) ]
  end.

(** ** Reasoning about dictionaries with literal keys *)

Lemma dget_insert_eq (m : payload) k v d : dget (<[k:=v]> m) k d = v.
Proof. unfold dget. by rewrite lookup_insert_eq. Qed.

Lemma dget_insert_ne (m : payload) k k' v d :
  k ≠ k' → dget (<[k:=v]> m) k' d = dget m k' d.
Proof. intros. unfold dget. by rewrite lookup_insert_ne. Qed.

Lemma dget_empty k d : dget ∅ k d = d.
Proof. reflexivity. Qed.

Lemma dget_singleton_eq k v d : dget {[k:=v]} k d = v.
Proof. unfold dget. by rewrite lookup_singleton_eq. Qed.

Lemma dget_singleton_ne k k' v d :
  k ≠ k' → dget ({[k:=v]} : payload) k' d = d.
Proof. intros. unfold dget. by rewrite lookup_singleton_ne. Qed.

Lemma dget_absent (m : payload) k d : m !! k = None → dget m k d = d.
Proof. intros H. unfold dget. by rewrite H. Qed.

Ltac str_ne := let H := fresh in intros H; discriminate H.

Ltac eval_dget :=
  repeat first
    [ rewrite dget_insert_eq
    | rewrite dget_insert_ne by str_ne
    | rewrite dget_singleton_eq
    | rewrite dget_singleton_ne by str_ne
    | rewrite dget_empty ].

Ltac eval_lookup :=
  repeat first
    [ rewrite lookup_insert_eq
    | rewrite lookup_insert_ne by str_ne
    | rewrite lookup_singleton_eq
    | rewrite lookup_singleton_ne by str_ne
    | rewrite lookup_empty ].

(** Run a method on a given input: compute, look keys up, settle the
    comparisons; [unf] unfolds what the run meets on its way. *)
Ltac py_eval_with unf :=
  repeat first
    [ progress cbn
    | progress unf
    | progress eval_dget
    | progress eval_lookup
    | progress decide_cmp
    | decide_bool ].

Ltac py_eval := py_eval_with idtac.

Ltac unfold_py :=
  unfold try_except, lift, flag, set_flag, get_self;
  cbn [bind ret py_monad result_monad].

(** ** Reasoning about sequencing *)

Lemma bind_py_ok {A B} (m : py A) (f : A → py B) self b self' :
  bind m f self = (Ok b, self') →
  ∃ a s1, m self = (Ok a, s1) ∧ f a s1 = (Ok b, self').
Proof.
  cbn [bind py_monad]. destruct (m self) as [[a|e] s1]; [eauto | discriminate].
Qed.

Lemma bind_result_ok {A B} (m : result A) (f : A → result B) b :
  bind m f = Ok b → ∃ a, m = Ok a ∧ f a = Ok b.
Proof. destruct m as [a|e]; cbn; [eauto | discriminate]. Qed.

Lemma lift_ok {A} (r : result A) self a self' :
  lift r self = (Ok a, self') → r = Ok a ∧ self' = self.
Proof. unfold lift. intros [= -> ->]. done. Qed.

(** ** Recommendation Mapper *)

(** C2. The recommendation is a step function of the composite score
    with closed lower bounds: at least 80 gives MAXIMUM CONVICTION BUY,
    [70, 80) GRAB BULL BY HORNS, [60, 70) STRONG BUY, [50, 60) BUY,
    [40, 50) WATCH/SMALL BUY and anything below 40 AVOID; so exactly 80
    is in the top tier, 79.9 in the second, 40 in watch/small-buy and
    39.9 in avoid. *)
Theorem recommendation_thresholds (s : R) :
  ((80 <= s)%R →
     action (get_position_recommendation s) = "🚀 MAXIMUM CONVICTION BUY")
  ∧ ((70 <= s < 80)%R →
     action (get_position_recommendation s) = "🐂 GRAB BULL BY HORNS")
  ∧ ((60 <= s < 70)%R →
     action (get_position_recommendation s) = "💪 STRONG BUY")
  ∧ ((50 <= s < 60)%R →
     action (get_position_recommendation s) = "🚀 BUY")
  ∧ ((40 <= s < 50)%R →
     action (get_position_recommendation s) = "👀 WATCH/SMALL BUY")
  ∧ ((s < 40)%R →
     action (get_position_recommendation s) = "❌ AVOID")
  ∧ action (get_position_recommendation 80) = "🚀 MAXIMUM CONVICTION BUY"
  ∧ action (get_position_recommendation 79.9) = "🐂 GRAB BULL BY HORNS"
  ∧ action (get_position_recommendation 40) = "👀 WATCH/SMALL BUY"
  ∧ action (get_position_recommendation 39.9) = "❌ AVOID".
Proof.
  unfold get_position_recommendation.
  repeat split; intros; decide_cmp; reflexivity.
Qed.

Lemma recommendation_thresholds_witness :
  (60 <= 65.5 < 70)%R
  ∧ action (get_position_recommendation 65.5) = "💪 STRONG BUY".
Proof.
  assert (60 <= 65.5 < 70)%R as H by lra.
  split; [exact H |].
  exact (proj1 (proj2 (proj2 (recommendation_thresholds 65.5))) H).
Defined.

(** ** Management Quality Calculator *)

Lemma ceo_performance_ok w self :
  ∃ p, ceo_performance w self = (Ok p, self).
Proof.
  unfold ceo_performance. unfold_py.
  repeat case_match; simplify_eq; eauto.
Qed.

Lemma roe_score_range roe : (-1 ≤ roe_score roe ≤ 2)%Z.
Proof. unfold roe_score. repeat case_cmp; lia. Qed.

Lemma margin_score_range profit_margins :
  (-1 ≤ margin_score profit_margins ≤ 1)%Z.
Proof. unfold margin_score. repeat case_cmp; lia. Qed.

Lemma performance_score_of_range info p :
  performance_score_of info = Ok p → (-2 ≤ p ≤ 3)%Z.
Proof.
  unfold performance_score_of. intros H.
  apply bind_result_ok in H as (r & _ & H).
  apply bind_result_ok in H as (m & _ & H).
  apply bind_result_ok in H as (? & _ & H).
  injection H as <-.
  pose proof (roe_score_range r). pose proof (margin_score_range m). lia.
Qed.

(** The performance validation: the score of the payload when yfinance
    is accessible, the lookup returns and the validation does not
    raise; 0 in every other case. *)
Lemma ceo_performance_cases w self :
  ∃ p,
    ceo_performance w self = (Ok p, self)
    ∧ (-2 ≤ p ≤ 3)%Z
    ∧ (yfinance_accessible (data_flags self) = false → p = 0)
    ∧ (yf_ceo w = None → p = 0)
    ∧ (∀ info e,
         yf_ceo w = Some info → performance_score_of info = Raise e → p = 0)
    ∧ (∀ info q,
         yfinance_accessible (data_flags self) = true →
         yf_ceo w = Some info → performance_score_of info = Ok q → p = q).
Proof.
  unfold ceo_performance, flag, try_except, lift. cbn [bind ret py_monad].
  destruct (yfinance_accessible (data_flags self)).
  2:{ exists 0. split; [done |]. split; [lia |].
      repeat split; try done; intros; simplify_eq. }
  destruct (yf_ceo w) as [info |]; cbn [from_option].
  2:{ exists 0. split; [done |]. split; [lia |].
      repeat split; try done; intros; simplify_eq. }
  destruct (performance_score_of info) as [p | e] eqn:Hp.
  - exists p. split; [done |].
    split; [by eapply performance_score_of_range |].
    split; [done |]. split; [done |].
    split; intros i x; intros; simplify_eq; congruence.
  - exists 0. split; [done |]. split; [lia |].
    split; [done |]. split; [done |].
    split; intros i x; intros; simplify_eq; congruence.
Qed.

(** The accumulated score, criterion by criterion. *)
Lemma ceo_accumulated_score_eq ceo_data performance_score :
  ceo_accumulated_score ceo_data performance_score
  = (if was_cfo ceo_data then -2 else 4)
    + ((if technical ceo_data then 2 else 0)
       + (if strategic ceo_data then 1 else 0)
       + (if founder ceo_data then 2 else 0) + 2)
    + vision_score (vision ceo_data)
    + execution_score (execution ceo_data)
    + performance_score
    + 6.
Proof.
  unfold ceo_accumulated_score, google_specific_factors. cbn [foldl snd].
  destruct (was_cfo ceo_data); cbn [negb]; lia.
Qed.

Lemma analyze_goog_ceo_entry w self ceo_data p :
  ceo_database self !! "GOOG" = Some ceo_data →
  ceo_performance w self = (Ok p, self) →
  analyze_goog_ceo w self =
    (Ok {| Ceo.name := name ceo_data;
           Ceo.score :=
             Z.min (Z.max (ceo_accumulated_score ceo_data p) 0) 15 |},
     self).
Proof.
  intros Hdb Hp. unfold analyze_goog_ceo, get_self, lift, final_score.
  cbn [bind py_monad]. rewrite Hdb. cbn [from_option]. by rewrite Hp.
Qed.

(** Runs of the method on three database entries, yfinance not being
    accessible: the accumulated scores are 20, 3 and 23. *)
Lemma strong_ceo_run :
  ceo_accumulated_score strong_ceo 0 = 20
  ∧ analyze_goog_ceo offline (with_ceo strong_ceo) =
      (Ok {| Ceo.name := "Strong"; Ceo.score := 15 |}, with_ceo strong_ceo).
Proof.
  split; [rewrite ceo_accumulated_score_eq; reflexivity |].
  rewrite (analyze_goog_ceo_entry _ _ strong_ceo 0) by reflexivity.
  rewrite ceo_accumulated_score_eq. reflexivity.
Qed.

Lemma former_cfo_run :
  ceo_accumulated_score former_cfo 0 = 3
  ∧ analyze_goog_ceo offline (with_ceo former_cfo) =
      (Ok {| Ceo.name := "Former"; Ceo.score := 3 |}, with_ceo former_cfo).
Proof.
  split; [rewrite ceo_accumulated_score_eq; reflexivity |].
  rewrite (analyze_goog_ceo_entry _ _ former_cfo 0) by reflexivity.
  rewrite ceo_accumulated_score_eq. reflexivity.
Qed.

Lemma goog_ceo_run :
  ceo_accumulated_score goog_ceo 0 = 23
  ∧ analyze_goog_ceo offline init =
      (Ok {| Ceo.name := "Sundar Pichai"; Ceo.score := 15 |}, init).
Proof.
  split; [rewrite ceo_accumulated_score_eq; reflexivity |].
  rewrite (analyze_goog_ceo_entry _ _ goog_ceo 0) by reflexivity.
  rewrite ceo_accumulated_score_eq. reflexivity.
Qed.

(** With yfinance accessible and an empty payload the validation
    subtracts 2: the accumulated score is 1. *)
Lemma former_cfo_validated :
  analyze_goog_ceo quiet
    (with_flags (set_yfinance_accessible true) (with_ceo former_cfo)) =
    (Ok {| Ceo.name := "Former"; Ceo.score := 1 |},
     with_flags (set_yfinance_accessible true) (with_ceo former_cfo)).
Proof.
  assert (ceo_performance quiet
            (with_flags (set_yfinance_accessible true) (with_ceo former_cfo))
          = (Ok (-2),
             with_flags (set_yfinance_accessible true) (with_ceo former_cfo)))
    as Hp.
  { unfold ceo_performance, performance_score_of. unfold_py.
    py_eval_with ltac:(unfold roe_score, margin_score). reflexivity. }
  rewrite (analyze_goog_ceo_entry _ _ former_cfo (-2)) by done.
  rewrite ceo_accumulated_score_eq. reflexivity.
Qed.

(** C8. The management score is the accumulated score clamped to
    [0, 15].  For every database entry and every provider answer the
    method returns [min(max(r, 0), 15)], where [r] is the score
    accumulated from the criteria of the entry and from the performance
    validation, whose contribution is the score of the yfinance payload
    when yfinance is accessible and the validation succeeds, and 0
    otherwise.  As a function, the clamp sends every [r] to
    [min(max(r, 0), 15)]: 20 gives 15 and -5 gives 0.  In runs of the
    method, an accumulated 20 is returned as 15, an accumulated 23 (the
    entry of the constructor) as 15, and an accumulated 3 or 1 as it
    is. *)
Theorem management_score_clamped (w : world) (self : analyzer)
    (ceo_data : ceo_entry) :
  ceo_database self !! "GOOG" = Some ceo_data →
  (∃ performance_score,
     ceo_performance w self = (Ok performance_score, self)
     ∧ (yfinance_accessible (data_flags self) = false →
        performance_score = 0)
     ∧ (yf_ceo w = None → performance_score = 0)
     ∧ (∀ info e,
          yf_ceo w = Some info → performance_score_of info = Raise e →
          performance_score = 0)
     ∧ (∀ info p,
          yfinance_accessible (data_flags self) = true →
          yf_ceo w = Some info → performance_score_of info = Ok p →
          performance_score = p)
     ∧ let r := ceo_accumulated_score ceo_data performance_score in
       r = (if was_cfo ceo_data then -2 else 4)
           + ((if technical ceo_data then 2 else 0)
              + (if strategic ceo_data then 1 else 0)
              + (if founder ceo_data then 2 else 0) + 2)
           + vision_score (vision ceo_data)
           + execution_score (execution ceo_data)
           + performance_score
           + 6
       ∧ analyze_goog_ceo w self =
           (Ok {| Ceo.name := name ceo_data;
                  Ceo.score := Z.min (Z.max r 0) 15 |}, self))
  ∧ (∀ r, final_score r = Z.min (Z.max r 0) 15)
  ∧ final_score 20 = 15
  ∧ final_score (-5) = 0
  ∧ (ceo_accumulated_score strong_ceo 0 = 20
     ∧ analyze_goog_ceo offline (with_ceo strong_ceo) =
         (Ok {| Ceo.name := "Strong"; Ceo.score := 15 |},
          with_ceo strong_ceo))
  ∧ (ceo_accumulated_score goog_ceo 0 = 23
     ∧ analyze_goog_ceo offline init =
         (Ok {| Ceo.name := "Sundar Pichai"; Ceo.score := 15 |}, init))
  ∧ (ceo_accumulated_score former_cfo 0 = 3
     ∧ analyze_goog_ceo offline (with_ceo former_cfo) =
         (Ok {| Ceo.name := "Former"; Ceo.score := 3 |},
          with_ceo former_cfo))
  ∧ analyze_goog_ceo quiet
      (with_flags (set_yfinance_accessible true) (with_ceo former_cfo)) =
      (Ok {| Ceo.name := "Former"; Ceo.score := 1 |},
       with_flags (set_yfinance_accessible true) (with_ceo former_cfo)).
Proof.
  intros Hdb.
  destruct (ceo_performance_cases w self)
    as (p & Hp & _ & Hoff & Hnone & Hraise & Hok).
  split.
  { exists p. split; [exact Hp |]. split; [exact Hoff |].
    split; [exact Hnone |]. split; [exact Hraise |]. split; [exact Hok |].
    cbv zeta. split; [apply ceo_accumulated_score_eq |].
    exact (analyze_goog_ceo_entry w self ceo_data p Hdb Hp). }
  split; [intros r; reflexivity |].
  split; [reflexivity |]. split; [reflexivity |].
  split; [exact strong_ceo_run |]. split; [exact goog_ceo_run |].
  split; [exact former_cfo_run | exact former_cfo_validated].
Qed.

Lemma management_score_clamped_witness :
  ceo_database init !! "GOOG" = Some goog_ceo
  ∧ ∃ performance_score,
      ceo_performance offline init = (Ok performance_score, init)
      ∧ analyze_goog_ceo offline init =
          (Ok {| Ceo.name := "Sundar Pichai";
                 Ceo.score :=
                   Z.min (Z.max (ceo_accumulated_score goog_ceo
                                   performance_score) 0) 15 |},
           init).
Proof.
  assert (ceo_database init !! "GOOG" = Some goog_ceo) as H by reflexivity.
  split; [exact H |].
  destruct (proj1 (management_score_clamped offline init goog_ceo H))
    as (p & Hp & _ & _ & _ & _ & _ & Hrun).
  exists p. split; [exact Hp | exact Hrun].
Defined.

(** The lower bound of the clamp is never reached by the method: the
    criteria of an entry add up to at least 3 and the validation takes
    at most 2 away. *)
Remark accumulated_score_is_positive (w : world) (self : analyzer)
    (ceo_data : ceo_entry) :
  ∃ performance_score,
    ceo_performance w self = (Ok performance_score, self)
    ∧ (1 ≤ ceo_accumulated_score ceo_data performance_score)%Z.
Proof.
  destruct (ceo_performance_cases w self) as (p & Hp & Hr & _).
  exists p. split; [done |]. rewrite ceo_accumulated_score_eq.
  unfold vision_score, execution_score.
  destruct (was_cfo ceo_data), (technical ceo_data), (strategic ceo_data),
    (founder ceo_data); repeat case_bool_decide; lia.
Qed.

(** ** Revision-Trend Calculator *)

Lemma revision_ladder_range trend :
  (-4 ≤ Revision.score (revision_ladder trend) ≤ 5)%Z.
Proof. unfold revision_ladder. repeat case_cmp; cbn; lia. Qed.

Lemma upside_component_range u : (-3 ≤ upside_component u ≤ 4)%Z.
Proof. unfold upside_component. repeat case_cmp; lia. Qed.

Lemma recommendation_component_range r :
  (-2 ≤ recommendation_component r ≤ 2)%Z.
Proof. unfold recommendation_component. repeat case_cmp; lia. Qed.

(** The primary path returns: what it returns is either what it was
    given or a rung of the ladder. *)
Lemma revisions_fmp_total w rd self :
  ∃ rd' self', revisions_fmp w rd self = (Ok rd', self')
    ∧ (rd' = rd ∨ ∃ t, rd' = revision_ladder t).
Proof.
  unfold revisions_fmp, revisions_fmp_body, py_div. unfold_py.
  repeat case_match; simplify_eq; eauto 10.
Qed.

(** So does the fallback path: either nothing changes or the score is
    the sum of the two components. *)
Lemma revisions_yfinance_total w rd self :
  ∃ rd' self', revisions_yfinance w rd self = (Ok rd', self')
    ∧ (rd' = rd
       ∨ ∃ u r, Revision.score rd'
                = upside_component u + recommendation_component r).
Proof.
  unfold revisions_yfinance, revisions_yfinance_body, py_div. unfold_py.
  repeat case_match; simplify_eq; eauto 10.
  all: do 2 eexists; split; [reflexivity |]; right; do 2 eexists; cbn;
    rewrite Z.add_0_r; reflexivity.
Qed.

Lemma get_goog_revisions_total w self :
  ∃ rd self', get_goog_revisions w self = (Ok rd, self').
Proof.
  unfold get_goog_revisions. cbn [bind py_monad].
  destruct (revisions_fmp_total w revision_init self) as (rd & s1 & -> & _).
  destruct (revisions_yfinance_total w rd s1) as (rd' & s2 & -> & _). eauto.
Qed.

(** The fallback path on a bullish consensus: both components at their
    top rung. *)
Lemma bullish_revisions :
  get_goog_revisions bullish yf_only =
    (Ok {| Revision.score := 6; Revision.direction := "VERY BULLISH";
           Revision.confidence := 0.6; Revision.source := "YFINANCE" |},
     with_flags (set_revision_data_available true) yf_only).
Proof.
  unfold get_goog_revisions, revisions_fmp, revisions_yfinance,
    revisions_yfinance_body.
  unfold_py.
  py_eval_with ltac:(unfold bullish_info, py_div, upside_component,
                     recommendation_component, analyst_confidence, direction_of).
  reflexivity.
Qed.

(** And on a bearish one: both at their bottom rung. *)
Lemma bearish_revisions :
  get_goog_revisions bearish yf_only =
    (Ok {| Revision.score := -5; Revision.direction := "VERY BEARISH";
           Revision.confidence := 0.6; Revision.source := "YFINANCE" |},
     with_flags (set_revision_data_available true) yf_only).
Proof.
  unfold get_goog_revisions, revisions_fmp, revisions_yfinance,
    revisions_yfinance_body.
  unfold_py.
  py_eval_with ltac:(unfold bearish_info, py_div, upside_component,
                     recommendation_component, analyst_confidence, direction_of).
  reflexivity.
Qed.

(** C5, as stated, fails: with FMP unreachable and a consensus of 1.5
    with a target 40% above the price, the fallback path scores 6. *)
Lemma revision_score_counterexample :
  ∃ rd self',
    get_goog_revisions bullish yf_only = (Ok rd, self')
    ∧ ¬ (-4 ≤ Revision.score rd ≤ 5)%Z.
Proof.
  do 2 eexists. split; [apply bullish_revisions |]. cbn. lia.
Qed.

(** C5, amended. The revision score is an integer between -5 and 6: a
    rung of the primary ladder lies in [-4, 5], and the fallback adds an
    upside component in [-3, 4] to a recommendation component in
    [-2, 2]; both 6 and -5 occur. *)
Theorem revision_score_range (w : world) (self : analyzer) :
  (∃ rd self',
     get_goog_revisions w self = (Ok rd, self')
     ∧ (-5 ≤ Revision.score rd ≤ 6)%Z)
  ∧ (∀ trend, (-4 ≤ Revision.score (revision_ladder trend) ≤ 5)%Z)
  ∧ (∀ upside recommendation_mean,
       (-5 ≤ upside_component upside
             + recommendation_component recommendation_mean ≤ 6)%Z)
  ∧ (∃ rd self',
       get_goog_revisions bullish yf_only = (Ok rd, self')
       ∧ Revision.score rd = 6)
  ∧ (∃ rd self',
       get_goog_revisions bearish yf_only = (Ok rd, self')
       ∧ Revision.score rd = -5).
Proof.
  split; [| split; [| split; [| split]]].
  - unfold get_goog_revisions. cbn [bind py_monad].
    destruct (revisions_fmp_total w revision_init self)
      as (rd & s1 & -> & Hrd).
    destruct (revisions_yfinance_total w rd s1) as (rd' & s2 & -> & Hrd').
    exists rd', s2. split; [reflexivity |].
    assert (-4 ≤ Revision.score rd ≤ 5)%Z as H1.
    { destruct Hrd as [-> | [t ->]]; [cbn; lia | apply revision_ladder_range]. }
    destruct Hrd' as [-> | (u & r & ->)]; [lia |].
    pose proof (upside_component_range u).
    pose proof (recommendation_component_range r). lia.
  - apply revision_ladder_range.
  - intros u r. pose proof (upside_component_range u).
    pose proof (recommendation_component_range r). lia.
  - do 2 eexists. split; [apply bullish_revisions | reflexivity].
  - do 2 eexists. split; [apply bearish_revisions | reflexivity].
Qed.

(** C9. In the primary path the trend is divided by [|previous|] only
    when [previous] is non-zero.  When the oldest of the three most
    recent estimates is 0 the primary path raises nothing and leaves the
    revision data as it was, and the method goes on to the fallback
    path; the body of the primary path never raises at all. *)
Theorem zero_previous_estimate_skipped (w : world) (self : analyzer)
    (rows : list estimate_row) :
  fmp_api_accessible (data_flags self) = true →
  fmp_revision_analysis w = Some rows →
  (3 ≤ length rows)%nat →
  last (estimatedEpsAvg <$> take 3 (sort_by_date_desc rows)) = Some 0%R →
  revisions_fmp_body rows revision_init self = (Ok revision_init, self)
  ∧ revisions_fmp w revision_init self = (Ok revision_init, self)
  ∧ get_goog_revisions w self = revisions_yfinance w revision_init self
  ∧ (∀ rows' rd self', ∃ rd' self'',
       revisions_fmp_body rows' rd self' = (Ok rd', self'')).
Proof.
  intros Hflag Hdata Hlen Hprev.
  assert (revisions_fmp_body rows revision_init self
          = (Ok revision_init, self)) as Hbody.
  { unfold revisions_fmp_body. cbv zeta. rewrite Hprev.
    cbn [default from_option Datatypes.id].
    rewrite (Reqb_true 0 0) by reflexivity. cbn [negb].
    by case_bool_decide. }
  assert (revisions_fmp w revision_init self = (Ok revision_init, self))
    as Hfmp.
  { unfold revisions_fmp, flag, try_except. cbn [bind py_monad].
    rewrite Hflag, Hdata, bool_decide_eq_true_2 by done.
    by rewrite Hbody. }
  split; [done |]. split; [done |]. split.
  - unfold get_goog_revisions. cbn [bind py_monad]. by rewrite Hfmp.
  - intros rows' rd self'. unfold revisions_fmp_body. cbv zeta.
    case_bool_decide; [| by eauto].
    set (previous := default 0%R (last _)).
    destruct (decide (previous = 0%R)) as [-> | Hne].
    + rewrite Reqb_true by reflexivity. by eauto.
    + rewrite (Reqb_false previous) by done. unfold py_div.
      rewrite Reqb_false by (by apply Rabs_no_R0). by eauto.
Qed.

Lemma zero_previous_estimate_skipped_witness :
  get_goog_revisions zero_previous fmp_only
  = revisions_yfinance zero_previous revision_init fmp_only.
Proof.
  refine (proj1 (proj2 (proj2
    (zero_previous_estimate_skipped zero_previous fmp_only flat_estimates
       _ _ _ _)))).
  - reflexivity.
  - reflexivity.
  - cbn. lia.
  - vm_compute. reflexivity.
Defined.

(** ** Earnings-Trend Calculator *)

(** Methods 1 and 2 return, and leave the yfinance flag alone. *)
Lemma earnings_fmp_total w ed self :
  ∃ ed' self',
    earnings_fmp w ed self = (Ok ed', self')
    ∧ yfinance_accessible (data_flags self')
      = yfinance_accessible (data_flags self).
Proof.
  unfold earnings_fmp, cagr_of, py_div. unfold_py.
  repeat case_match; simplify_eq; eauto.
Qed.

Lemma earnings_estimates_total w self :
  ∃ self',
    earnings_estimates w self = (Ok tt, self')
    ∧ yfinance_accessible (data_flags self')
      = yfinance_accessible (data_flags self).
Proof.
  unfold earnings_estimates. unfold_py.
  repeat case_match; simplify_eq; eauto.
Qed.

Lemma earnings_yfinance_total w ed self :
  ∃ ed', earnings_yfinance w ed self = (Ok ed', self).
Proof.
  unfold earnings_yfinance. unfold_py.
  repeat case_match; simplify_eq; eauto.
Qed.

Lemma get_goog_earnings_data_total w self :
  ∃ ed self', get_goog_earnings_data w self = (Ok ed, self').
Proof.
  unfold get_goog_earnings_data. cbn [bind py_monad].
  destruct (earnings_fmp_total w earnings_init self) as (e1 & s1 & -> & _).
  destruct (earnings_estimates_total w s1) as (s2 & -> & _).
  destruct (earnings_yfinance_total w e1 s2) as (e3 & ->). eauto.
Qed.

(** With every adapter unavailable nothing is computed. *)
Lemma offline_earnings :
  get_goog_earnings_data offline init = (Ok earnings_init, init).
Proof.
  unfold get_goog_earnings_data, earnings_fmp, earnings_estimates,
    earnings_yfinance.
  unfold_py. py_eval. reflexivity.
Qed.

(** C3, as stated, fails: with every adapter unavailable the primary
    path yields zero and there is no fallback growth field, yet the
    growth rate stays 0 with quality UNKNOWN. *)
Lemma static_growth_fallback_counterexample :
  earnings_fmp offline earnings_init init = (Ok earnings_init, init)
  ∧ py_eq0 (Earnings.cagr earnings_init) = true
  ∧ yf_earnings offline = None
  ∧ ∃ e self',
      get_goog_earnings_data offline init = (Ok e, self')
      ∧ Earnings.cagr e ≠ VNum 0.15
      ∧ Earnings.quality e ≠ "ESTIMATED_HISTORICAL".
Proof.
  split; [reflexivity |]. split; [apply Reqb_true; reflexivity |].
  split; [reflexivity |].
  do 2 eexists. split; [apply offline_earnings |]. cbn.
  split; [intros [= H]; lra | discriminate].
Qed.

(** C3, amended. When the primary path leaves a zero growth rate, the
    yfinance flag is set and the fallback lookup returns with its growth
    field zero or absent, the growth rate is exactly 0.15 with quality
    ESTIMATED_HISTORICAL (source FALLBACK).  When the yfinance flag is
    not set or the lookup raises, the earnings data stay as the primary
    path left them. *)
Theorem static_growth_fallback (w : world) (self : analyzer)
    (e1 : Earnings.t) (s1 : analyzer) :
  earnings_fmp w earnings_init self = (Ok e1, s1) →
  py_eq0 (Earnings.cagr e1) = true →
  (∀ info,
     yfinance_accessible (data_flags self) = true →
     yf_earnings w = Some info →
     truthy (dget info "earningsGrowth" num0) = false →
     ∃ self',
       get_goog_earnings_data w self =
         (Ok {| Earnings.cagr := VNum 0.15;
                Earnings.quality := "ESTIMATED_HISTORICAL";
                Earnings.source := "FALLBACK" |}, self'))
  ∧ (yfinance_accessible (data_flags self) = false ∨ yf_earnings w = None →
     ∃ self', get_goog_earnings_data w self = (Ok e1, self')).
Proof.
  intros H1 Hzero.
  destruct (earnings_fmp_total w earnings_init self) as (e1' & s1' & H1' & Hf1).
  rewrite H1 in H1'. injection H1' as <- <-.
  destruct (earnings_estimates_total w s1) as (s2 & H2 & Hf2).
  unfold get_goog_earnings_data. cbn [bind py_monad]. rewrite H1, H2.
  unfold earnings_yfinance, flag. cbn [bind py_monad]. rewrite Hzero, Hf2, Hf1.
  split.
  - intros info -> -> ->. cbn. eauto.
  - intros [-> | ->]; cbn; [eauto |].
    destruct (yfinance_accessible (data_flags self)); cbn; eauto.
Qed.

Lemma static_growth_fallback_witness :
  ∃ self',
    get_goog_earnings_data quiet yf_only =
      (Ok {| Earnings.cagr := VNum 0.15;
             Earnings.quality := "ESTIMATED_HISTORICAL";
             Earnings.source := "FALLBACK" |}, self').
Proof.
  refine (proj1 (static_growth_fallback quiet yf_only earnings_init yf_only
                   _ _) ∅ _ _ _).
  - reflexivity.
  - apply Reqb_true. reflexivity.
  - reflexivity.
  - reflexivity.
  - rewrite dget_empty. cbn. rewrite Reqb_true by reflexivity. reflexivity.
Defined.

(** The loop keeps the magnitudes of the non-zero net incomes, in the
    order it meets them. *)
Lemma earnings_loop_numeric rows incomes acc :
  Forall2 (λ row x, dget row "netIncome" num0 = VNum x
                    ∧ fmt (dget row "eps" num0) = Ok tt) rows incomes →
  earnings_loop rows acc
  = Ok (acc ++ (Rabs <$> filter (λ x, x ≠ 0%R) incomes))%list.
Proof.
  intros H. revert acc.
  induction H as [| row x rows incomes [Hn He] _ IH]; intros acc.
  - cbn. by rewrite app_nil_r.
  - cbn [earnings_loop]. rewrite Hn, He. cbn [truthy as_num bind result_monad].
    destruct (decide (x = 0%R)) as [-> | Hx].
    + rewrite Reqb_true by reflexivity. cbn [negb].
      rewrite filter_cons_False by (intros Hc; by apply Hc). apply IH.
    + rewrite Reqb_false by done. cbn [negb].
      rewrite filter_cons_True by done. rewrite IH.
      by rewrite <- app_assoc.
Qed.

Lemma head_fmap {A B} (f : A → B) (l : list A) : head (f <$> l) = f <$> head l.
Proof. by destruct l. Qed.

(** Method 1 on numeric rows, listed newest first: the rate over the
    magnitudes of the non-zero incomes. *)
Lemma earnings_fmp_numeric w self rows incomes :
  fmp_api_accessible (data_flags self) = true →
  fmp_historical_earnings w = Some rows →
  Forall2 (λ row x, dget row "netIncome" num0 = VNum x
                    ∧ fmt (dget row "eps" num0) = Ok tt) rows incomes →
  let usable := filter (λ x, x ≠ 0%R) incomes in
  (2 ≤ length usable)%nat →
  ∃ latest earliest,
    head usable = Some latest ∧ last usable = Some earliest
    ∧ earnings_fmp w earnings_init self =
        (Ok {| Earnings.cagr :=
                 VNum (Rpower (Rabs latest / Rabs earliest)
                              (1 / INR (length usable - 1)) - 1);
               Earnings.quality := "HIGH";
               Earnings.source := "FMP" |},
         with_flags (set_earnings_data_available true) self).
Proof.
  intros Hflag Hdata Hrows usable Hlen.
  destruct (head usable) as [latest |] eqn:Hhead;
    [| destruct usable; [cbn in Hlen; lia | discriminate]].
  destruct (last usable) as [earliest |] eqn:Hlast;
    [| apply last_None in Hlast; rewrite Hlast in Hhead; discriminate].
  exists latest, earliest. split; [done |]. split; [done |].
  assert (earliest ≠ 0%R) as Hne.
  { apply last_Some_elem_of in Hlast.
    by apply list_elem_of_filter in Hlast as [? _]. }
  assert (length rows = length incomes) as Hlr by by eapply Forall2_length.
  pose proof (length_filter (λ x, x ≠ 0%R) incomes) as Hle.
  fold usable in Hle.
  unfold earnings_fmp, flag, try_except, lift. cbn [bind py_monad].
  rewrite Hflag, Hdata, bool_decide_eq_true_2 by lia.
  rewrite (earnings_loop_numeric _ (reverse incomes))
    by by apply Forall2_reverse.
  rewrite filter_reverse. fold usable. cbn [app].
  rewrite length_fmap, length_reverse, bool_decide_eq_true_2 by done.
  unfold cagr_of.
  rewrite fmap_last, last_reverse, head_fmap, head_reverse, Hhead, Hlast.
  rewrite length_fmap, length_reverse.
  cbn [fmap option_fmap option_map default from_option Datatypes.id].
  unfold py_div. rewrite Reqb_false by by apply Rabs_no_R0.
  rewrite Reqb_false by (apply not_0_INR; lia).
  reflexivity.
Qed.

Lemma growth_two_points : (Rpower (121 / 100) (1 / 1) - 1 = 0.21)%R.
Proof. replace (1 / 1)%R with 1%R by lra. rewrite Rpower_1 by lra. lra. Qed.

Lemma growth_three_points : (Rpower (121 / 100) (1 / (1 + 1)) - 1 = 0.1)%R.
Proof.
  replace (1 / (1 + 1))%R with (/ 2)%R by lra.
  rewrite Rpower_sqrt by lra.
  rewrite (sqrt_lem_1 (121 / 100) (11 / 10)) by lra. lra.
Qed.

(** C6. With n >= 2 usable annual net incomes the earnings CAGR is
    (latest / earliest) ^ (1 / (n - 1)) - 1 over their absolute values
    (the method keeps it as its result unless it is exactly 0, which the
    fallback chain reads as no result); net incomes 100 then 121 give
    0.21, and 100, 110, 121 give (121 / 100) ^ (1 / 2) - 1 = 0.1. *)
Theorem earnings_cagr_formula :
  (∀ (w : world) (self : analyzer) (rows : list payload) (incomes : list R),
     fmp_api_accessible (data_flags self) = true →
     fmp_historical_earnings w = Some rows →
     Forall2 (λ row x, dget row "netIncome" num0 = VNum x
                       ∧ fmt (dget row "eps" num0) = Ok tt) rows incomes →
     let usable := filter (λ x, x ≠ 0%R) incomes in
     (2 ≤ length usable)%nat →
     ∃ latest earliest,
       head usable = Some latest ∧ last usable = Some earliest
       ∧ let rate :=
           (Rpower (Rabs latest / Rabs earliest)
                   (1 / INR (length usable - 1)) - 1)%R in
         let computed :=
           {| Earnings.cagr := VNum rate;
              Earnings.quality := "HIGH";
              Earnings.source := "FMP" |} in
         (∃ self', earnings_fmp w earnings_init self = (Ok computed, self'))
         ∧ (rate ≠ 0%R →
            ∃ self', get_goog_earnings_data w self = (Ok computed, self')))
  ∧ (∃ self',
       get_goog_earnings_data two_years fmp_only =
         (Ok {| Earnings.cagr := VNum 0.21;
                Earnings.quality := "HIGH";
                Earnings.source := "FMP" |}, self'))
  ∧ (∃ self',
       get_goog_earnings_data three_years fmp_only =
         (Ok {| Earnings.cagr := VNum 0.1;
                Earnings.quality := "HIGH";
                Earnings.source := "FMP" |}, self')).
Proof.
  split; [| split].
  - intros w self rows incomes Hflag Hdata Hrows usable Hlen.
    destruct (earnings_fmp_numeric w self rows incomes Hflag Hdata Hrows Hlen)
      as (latest & earliest & Hhead & Hlast & Hfmp).
    exists latest, earliest. split; [done |]. split; [done |].
    cbv zeta. split; [by eauto |].
    intros Hrate. unfold get_goog_earnings_data. cbn [bind py_monad].
    fold usable in Hfmp. rewrite Hfmp.
    destruct (earnings_estimates_total w
                (with_flags (set_earnings_data_available true) self))
      as (s2 & -> & _).
    unfold earnings_yfinance, flag. cbn [bind py_monad Earnings.cagr py_eq0].
    rewrite Reqb_false by done. cbn. by eauto.
  - unfold get_goog_earnings_data, earnings_fmp, earnings_estimates,
      earnings_yfinance.
    unfold_py.
    py_eval_with ltac:(unfold income_row, cagr_of, py_div;
                       rewrite ?Rabs_pos_eq by lra).
    rewrite growth_two_points.
    py_eval. by eauto.
  - unfold get_goog_earnings_data, earnings_fmp, earnings_estimates,
      earnings_yfinance.
    unfold_py.
    py_eval_with ltac:(unfold income_row, cagr_of, py_div;
                       rewrite ?Rabs_pos_eq by lra).
    rewrite growth_three_points.
    py_eval. by eauto.
Qed.

Lemma earnings_cagr_formula_witness :
  ∃ latest earliest,
    head (filter (λ x, x ≠ 0%R) [121%R; 0%R; 100%R]) = Some latest
    ∧ last (filter (λ x, x ≠ 0%R) [121%R; 0%R; 100%R]) = Some earliest
    ∧ ∃ self',
        earnings_fmp
          (fmp_world (Some [income_row 121; income_row 0; income_row 100])
                     None)
          earnings_init fmp_only =
          (Ok {| Earnings.cagr :=
                   VNum (Rpower (Rabs latest / Rabs earliest)
                           (1 / INR (length (filter (λ x, x ≠ 0%R)
                                               [121%R; 0%R; 100%R]) - 1))
                         - 1);
                 Earnings.quality := "HIGH";
                 Earnings.source := "FMP" |}, self').
Proof.
  destruct (proj1 earnings_cagr_formula
              (fmp_world (Some [income_row 121; income_row 0; income_row 100])
                         None)
              fmp_only [income_row 121; income_row 0; income_row 100]
              [121%R; 0%R; 100%R])
    as (latest & earliest & Hhead & Hlast & Hfmp & _).
  - reflexivity.
  - reflexivity.
  - repeat constructor; unfold income_row; eval_dget; reflexivity.
  - rewrite filter_cons_True by lra.
    rewrite filter_cons_False by (intros H; by apply H).
    rewrite filter_cons_True by lra. cbn. lia.
  - exists latest, earliest. split; [exact Hhead |]. split; [exact Hlast |].
    exact Hfmp.
Defined.

(** ** Metrics Normalizer *)

(** When nothing raises every category is assigned. *)
Lemma normalizer_complete w self info pm em lm qm :
  yf_valuation w = Some info →
  price_metrics_of info = Ok pm → efficiency_metrics_of info = Ok em →
  leverage_metrics_of info = Ok lm → quality_metrics_of info = Ok qm →
  get_comprehensive_valuation_data w self
  = (Ok tt, normalized info pm em lm qm self).
Proof.
  intros Hyf Hpm Hem Hlm Hqm.
  unfold get_comprehensive_valuation_data, try_except, assign, lift, set_flag.
  cbn [bind py_monad]. rewrite Hyf. cbn [from_option].
  by rewrite Hpm, Hem, Hlm, Hqm.
Qed.

(** Otherwise the completion flag ends up false. *)
Lemma normalizer_cases w self info :
  yf_valuation w = Some info →
  (∃ pm em lm qm,
     price_metrics_of info = Ok pm ∧ efficiency_metrics_of info = Ok em
     ∧ leverage_metrics_of info = Ok lm ∧ quality_metrics_of info = Ok qm
     ∧ get_comprehensive_valuation_data w self
       = (Ok tt, normalized info pm em lm qm self))
  ∨ (∃ self',
       get_comprehensive_valuation_data w self = (Ok tt, self')
       ∧ valuation_data_complete (data_flags self') = false).
Proof.
  intros Hyf.
  destruct (price_metrics_of info) as [pm |] eqn:Hpm;
    [destruct (efficiency_metrics_of info) as [em |] eqn:Hem;
     [destruct (leverage_metrics_of info) as [lm |] eqn:Hlm;
      [destruct (quality_metrics_of info) as [qm |] eqn:Hqm |] |] |].
  { left. exists pm, em, lm, qm.
    by rewrite (normalizer_complete w self info pm em lm qm). }
  all: right;
    unfold get_comprehensive_valuation_data, try_except, assign, lift, set_flag;
    cbn [bind py_monad]; rewrite Hyf; cbn [from_option];
    rewrite Hpm, ?Hem, ?Hlm, ?Hqm; by eauto.
Qed.

(** On an empty payload nothing raises. *)
Lemma normalizer_quiet self :
  ∃ pm em lm qm,
    get_comprehensive_valuation_data quiet self
    = (Ok tt, normalized ∅ pm em lm qm self).
Proof.
  assert (∃ pm, price_metrics_of ∅ = Ok pm) as [pm Hpm].
  { unfold price_metrics_of, price_vs. py_eval. by eauto. }
  assert (∃ em, efficiency_metrics_of ∅ = Ok em) as [em Hem].
  { unfold efficiency_metrics_of, py_sub. py_eval. by eauto. }
  assert (∃ lm, leverage_metrics_of ∅ = Ok lm) as [lm Hlm].
  { unfold leverage_metrics_of, py_sub. py_eval. by eauto. }
  assert (∃ qm, quality_metrics_of ∅ = Ok qm) as [qm Hqm].
  { unfold quality_metrics_of, analyst_target_upside_of. py_eval. by eauto. }
  exists pm, em, lm, qm. by apply normalizer_complete.
Qed.

Lemma normalizer_total w self :
  ∃ self', get_comprehensive_valuation_data w self = (Ok tt, self').
Proof.
  destruct (yf_valuation w) as [info |] eqn:Hyf.
  - destruct (normalizer_cases w self info Hyf)
      as [(? & ? & ? & ? & _ & _ & _ & _ & ->) | (? & -> & _)]; eauto.
  - unfold get_comprehensive_valuation_data, try_except, lift, set_flag.
    cbn [bind py_monad]. rewrite Hyf. cbn. eauto.
Qed.

Lemma price_vs_absent cp info k v :
  info !! k = None → price_vs cp info k = Ok v → v = num0.
Proof.
  intros Habs. unfold price_vs. rewrite dget_absent by done. cbn.
  by intros [= <-].
Qed.

Lemma price_metrics_of_ok info pm :
  price_metrics_of info = Ok pm →
  ∃ hi lo,
    let current_price :=
      dget info "currentPrice" (dget info "regularMarketPrice" num0) in
    price_vs current_price info "fiftyTwoWeekHigh" = Ok hi
    ∧ price_vs current_price info "fiftyTwoWeekLow" = Ok lo
    ∧ pm = {[ "current_price" := current_price;
              "day_high" := dget info "dayHigh" num0;
              "day_low" := dget info "dayLow" num0;
              "week_52_high" := dget info "fiftyTwoWeekHigh" num0;
              "week_52_low" := dget info "fiftyTwoWeekLow" num0;
              "price_vs_52w_high" := hi;
              "price_vs_52w_low" := lo;
              "avg_volume" := dget info "averageVolume" num0;
              "market_cap" := dget info "marketCap" num0;
              "enterprise_value" := dget info "enterpriseValue" num0;
              "price_target_mean" := dget info "targetMeanPrice" num0;
              "price_target_high" := dget info "targetHighPrice" num0;
              "price_target_low" := dget info "targetLowPrice" num0 ]}.
Proof.
  unfold price_metrics_of. intros H.
  apply bind_result_ok in H as (hi & Hhi & H).
  apply bind_result_ok in H as (lo & Hlo & H).
  injection H as <-. by eauto.
Qed.

Lemma efficiency_metrics_of_ok info em :
  efficiency_metrics_of info = Ok em →
  ∃ wc,
    py_sub (dget info "totalCash" num0) (dget info "totalDebt" num0) = Ok wc
    ∧ em = {[ "asset_turnover" := num0;
              "inventory_turnover" := num0;
              "receivables_turnover" := num0;
              "working_capital" := wc;
              "operating_cash_flow" := dget info "operatingCashflow" num0;
              "free_cash_flow" := dget info "freeCashflow" num0;
              "capex_to_revenue" := num0 ]}.
Proof.
  unfold efficiency_metrics_of. intros H.
  apply bind_result_ok in H as (wc & Hwc & H). injection H as <-. by eauto.
Qed.

Lemma leverage_metrics_of_ok info lm :
  leverage_metrics_of info = Ok lm →
  ∃ nd,
    py_sub (dget info "totalDebt" num0) (dget info "totalCash" num0) = Ok nd
    ∧ lm = {[ "total_debt" := dget info "totalDebt" num0;
              "total_cash" := dget info "totalCash" num0;
              "net_debt" := nd;
              "debt_to_equity" := dget info "debtToEquity" num0;
              "debt_to_assets" := num0;
              "interest_coverage" := num0;
              "debt_to_ebitda" := num0;
              "cash_per_share" := dget info "totalCashPerShare" num0 ]}.
Proof.
  unfold leverage_metrics_of. intros H.
  apply bind_result_ok in H as (nd & Hnd & H). injection H as <-. by eauto.
Qed.

Lemma quality_metrics_of_ok info qm :
  quality_metrics_of info = Ok qm →
  ∃ up,
    analyst_target_upside_of info = Ok up
    ∧ qm = {[ "recommendation_mean" := dget info "recommendationMean" num0;
              "recommendation_key" :=
                dget info "recommendationKey" (VStr "none");
              "number_of_analyst_opinions" :=
                dget info "numberOfAnalystOpinions" num0;
              "analyst_target_upside" := up;
              "earnings_estimate_current_quarter" := num0;
              "earnings_estimate_next_quarter" := num0;
              "earnings_estimate_current_year" := num0;
              "earnings_estimate_next_year" := num0 ]}.
Proof.
  unfold quality_metrics_of. intros H.
  apply bind_result_ok in H as (up & Hup & H). injection H as <-. by eauto.
Qed.

(** What a normalized analyzer holds under each category. *)
Lemma normalized_metrics info pm em lm qm self :
  let vm := valuation_metrics (normalized info pm em lm qm self) in
  vm !! "price_metrics" = Some pm
  ∧ vm !! "ratio_metrics" = Some (ratio_metrics_of info)
  ∧ vm !! "growth_metrics" = Some (growth_metrics_of info)
  ∧ vm !! "profitability_metrics" = Some (profitability_metrics_of info)
  ∧ vm !! "efficiency_metrics" = Some em
  ∧ vm !! "leverage_metrics" = Some lm
  ∧ vm !! "liquidity_metrics" = Some (liquidity_metrics_of info)
  ∧ vm !! "market_metrics" = Some (market_metrics_of info)
  ∧ vm !! "dividend_metrics" = Some (dividend_metrics_of info)
  ∧ vm !! "quality_metrics" = Some qm.
Proof.
  unfold normalized. cbn [valuation_metrics with_flags set_metrics].
  repeat split; by eval_lookup.
Qed.

(** C4, as stated, fails twice over: on an empty payload the normalizer
    leaves [ex_dividend_date] at [None], not 0; and when the lookup
    raises, the categories stay empty, so the metric is a missing key. *)
Lemma absent_fields_counterexample :
  (∅ : payload) !! "exDividendDate" = None
  ∧ metric (get_comprehensive_valuation_data quiet init).2
      "dividend_metrics" "ex_dividend_date" = Some VNone
  ∧ metric (get_comprehensive_valuation_data offline init).2
      "price_metrics" "day_high" = None.
Proof.
  split; [reflexivity |]. split.
  - destruct (normalizer_quiet init) as (pm & em & lm & qm & ->).
    cbn [snd]. unfold metric.
    destruct (normalized_metrics ∅ pm em lm qm init)
      as (_ & _ & _ & _ & _ & _ & _ & _ & -> & _).
    reflexivity.
  - reflexivity.
Qed.

(** C4, amended. After a normalizer run that completes, a metric whose
    backing field is absent from the payload holds the number 0, with
    two exceptions.  In detail: a metric read with a default of 0 holds
    0 when its backing field is absent (the current price when both of
    its backing fields are absent); a metric the code sets to the
    literal 0 holds 0; a metric computed from two fields holds 0 when
    both are absent, the analyst target upside when no price is there;
    and the two non-numeric metrics take their own defaults,
    [ex_dividend_date] being [None] and [recommendation_key] the string
    "none". *)
Theorem absent_fields_default (w : world) (self : analyzer) (info : payload) :
  yf_valuation w = Some info →
  let self' := (get_comprehensive_valuation_data w self).2 in
  valuation_data_complete (data_flags self') = true →
  (∀ cat field key,
     (cat, field, key) ∈ backed_fields →
     info !! key = None →
     metric self' cat field = Some (VNum 0))
  ∧ (∀ cat field,
       (cat, field) ∈ constant_fields →
       metric self' cat field = Some (VNum 0))
  ∧ (info !! "currentPrice" = None →
     info !! "regularMarketPrice" = None →
     metric self' "price_metrics" "current_price" = Some (VNum 0)
     ∧ metric self' "quality_metrics" "analyst_target_upside"
       = Some (VNum 0))
  ∧ (info !! "totalCash" = None →
     info !! "totalDebt" = None →
     metric self' "efficiency_metrics" "working_capital" = Some (VNum 0)
     ∧ metric self' "leverage_metrics" "net_debt" = Some (VNum 0))
  ∧ (info !! "exDividendDate" = None →
     metric self' "dividend_metrics" "ex_dividend_date" = Some VNone)
  ∧ (info !! "recommendationKey" = None →
     metric self' "quality_metrics" "recommendation_key"
     = Some (VStr "none")).
Proof.
  intros Hyf self' Hdone. subst self'.
  destruct (normalizer_cases w self info Hyf)
    as [(pm & em & lm & qm & Hpm & Hem & Hlm & Hqm & Hrun) | (s & Hrun & Hf)];
    rewrite Hrun in *; cbn [snd] in *; [| congruence].
  clear Hrun Hdone.
  destruct (normalized_metrics info pm em lm qm self)
    as (Hc1 & Hc2 & Hc3 & Hc4 & Hc5 & Hc6 & Hc7 & Hc8 & Hc9 & Hc10).
  apply price_metrics_of_ok in Hpm as (hi & lo & Hhi & Hlo & ->).
  apply efficiency_metrics_of_ok in Hem as (wc & Hwc & ->).
  apply leverage_metrics_of_ok in Hlm as (nd & Hnd & ->).
  apply quality_metrics_of_ok in Hqm as (up & Hup & ->).
  cbv zeta in Hhi, Hlo.
  unfold metric.
  split; [| split; [| split; [| split; [| split]]]].
  - intros cat field key Hin Habs. unfold backed_fields in Hin.
    repeat (apply elem_of_cons in Hin as [[= -> -> ->] | Hin];
            [ try apply (price_vs_absent _ _ _ _ Habs) in Hhi as ->;
              try apply (price_vs_absent _ _ _ _ Habs) in Hlo as ->;
              first [ rewrite Hc1 | rewrite Hc2 | rewrite Hc3 | rewrite Hc4
                    | rewrite Hc5 | rewrite Hc6 | rewrite Hc7 | rewrite Hc8
                    | rewrite Hc9 | rewrite Hc10 ];
              cbn [mbind option_bind];
              unfold ratio_metrics_of, growth_metrics_of,
                profitability_metrics_of, liquidity_metrics_of,
                market_metrics_of, dividend_metrics_of, dget;
              rewrite Habs; reflexivity
            | ]).
    by apply elem_of_nil in Hin.
  - intros cat field Hin. unfold constant_fields in Hin.
    repeat (apply elem_of_cons in Hin as [[= -> ->] | Hin];
            [ first [ rewrite Hc3 | rewrite Hc4 | rewrite Hc5 | rewrite Hc6
                    | rewrite Hc7 | rewrite Hc10 ];
              reflexivity
            | ]).
    by apply elem_of_nil in Hin.
  - intros H1 H2. rewrite Hc1, Hc10. cbn [mbind option_bind].
    unfold analyst_target_upside_of in Hup.
    rewrite (dget_absent _ _ _ H1), (dget_absent _ _ _ H2) in Hup |- *.
    cbn in Hup. rewrite Rgtb_false in Hup by lra. injection Hup as <-.
    by split.
  - intros H1 H2. rewrite Hc5, Hc6. cbn [mbind option_bind].
    unfold py_sub in Hwc, Hnd.
    rewrite (dget_absent _ _ _ H1), (dget_absent _ _ _ H2) in Hwc, Hnd.
    cbn in Hwc, Hnd. injection Hwc as <-. injection Hnd as <-.
    assert (VNum (0 - 0) = VNum 0) as Hz by (f_equal; lra).
    split.
    + transitivity (Some (VNum (0 - 0))); [reflexivity | by rewrite Hz].
    + transitivity (Some (VNum (0 - 0))); [reflexivity | by rewrite Hz].
  - intros H. rewrite Hc9. cbn [mbind option_bind].
    unfold dividend_metrics_of, dget. rewrite H. reflexivity.
  - intros H. rewrite Hc10. cbn [mbind option_bind]. unfold dget.
    rewrite H. reflexivity.
Qed.

Lemma absent_fields_default_witness :
  metric (get_comprehensive_valuation_data quiet init).2
    "price_metrics" "day_high" = Some (VNum 0).
Proof.
  refine (proj1 (absent_fields_default quiet init ∅ _ _)
            "price_metrics" "day_high" "dayHigh" _ _).
  - reflexivity.
  - destruct (normalizer_quiet init) as (pm & em & lm & qm & ->). reflexivity.
  - unfold backed_fields. constructor.
  - reflexivity.
Defined.

(** ** Conviction Scorer *)

(** *** Every ladder is bounded *)

Lemma pe_compression_score_range c : (0 ≤ pe_compression_score c ≤ 10)%Z.
Proof. unfold pe_compression_score. repeat case_cmp; lia. Qed.

Lemma peg_score_range p : (-2 ≤ peg_score p ≤ 8)%Z.
Proof. unfold peg_score. repeat case_cmp; lia. Qed.

Lemma target_upside_score_range u : (-2 ≤ target_upside_score u ≤ 4)%Z.
Proof. unfold target_upside_score. repeat case_cmp; cbn; lia. Qed.

Lemma week52_score_range v : (0 ≤ week52_score v ≤ 3)%Z.
Proof. unfold week52_score. repeat case_cmp; lia. Qed.

Lemma earnings_growth_score_range c : (-4 ≤ earnings_growth_score c ≤ 12)%Z.
Proof. unfold earnings_growth_score. repeat case_cmp; lia. Qed.

Lemma revenue_growth_score_range g : (-3 ≤ revenue_growth_score g ≤ 8)%Z.
Proof. unfold revenue_growth_score. repeat case_cmp; lia. Qed.

Lemma profit_margin_score_range m : (0 ≤ profit_margin_score m ≤ 5)%Z.
Proof. unfold profit_margin_score. repeat case_cmp; lia. Qed.

Lemma revision_points_range s : (-8 ≤ revision_points s ≤ 15)%Z.
Proof. unfold revision_points. repeat case_bool_decide; lia. Qed.

Lemma macro_points_range m : (-8 <= macro_points m <= 10)%R.
Proof.
  unfold macro_points. split.
  - apply Rmin_glb; [apply Rmax_r | lra].
  - apply Rmin_r.
Qed.

Lemma management_score_of_le s : (management_score_of s ≤ 25)%Z.
Proof. unfold management_score_of. lia. Qed.

(** *** The sub-scores are capped at 25 *)

Lemma valuation_score_of_range pm rm c v :
  valuation_score_of pm rm c = Ok v → (-5 ≤ v ≤ 25)%Z.
Proof.
  unfold valuation_score_of. intros H.
  apply bind_result_ok in H as (f & _ & H).
  apply bind_result_ok in H as (t & _ & H).
  apply bind_result_ok in H as (v1 & Hv1 & H).
  apply bind_result_ok in H as (peg & _ & H).
  apply bind_result_ok in H as (p & _ & H).
  apply bind_result_ok in H as (c' & _ & H).
  apply bind_result_ok in H as (cp & _ & H).
  apply bind_result_ok in H as (tu & _ & H).
  apply bind_result_ok in H as (hi & _ & H).
  injection H as <-.
  assert (0 ≤ v1 ≤ 10)%Z as Hr1.
  { destruct (_ && _).
    - apply bind_result_ok in Hv1 as (pc & _ & [= <-]).
      pose proof (pe_compression_score_range pc). lia.
    - injection Hv1 as <-. lia. }
  pose proof (peg_score_range p). pose proof (target_upside_score_range tu).
  pose proof (week52_score_range hi).
  repeat case_match; lia.
Qed.

Lemma growth_score_of_range gm pm c g :
  growth_score_of gm pm c = Ok g → (-7 ≤ g ≤ 25)%Z.
Proof.
  unfold growth_score_of. intros H.
  apply bind_result_ok in H as (x & _ & H).
  apply bind_result_ok in H as (rg & _ & H).
  apply bind_result_ok in H as (p & _ & H).
  apply bind_result_ok in H as (? & _ & H).
  apply bind_result_ok in H as (? & _ & H).
  injection H as <-.
  pose proof (earnings_growth_score_range x).
  pose proof (revenue_growth_score_range rg).
  pose proof (profit_margin_score_range p). lia.
Qed.

(** *** What a computation that does not raise returns *)

Lemma conviction_body_inv w self total bd ed self' :
  conviction_body w self = (Ok (total, bd, ed), self') →
  ∃ (v g m : Z) (c : R),
    bd = breakdown_of v g m c
    ∧ total = (IZR v + IZR g + IZR m + c)%R
    ∧ (v ≤ 25)%Z ∧ (g ≤ 25)%Z ∧ (m ≤ 25)%Z ∧ (c <= 25)%R
    ∧ is_Some ed.
Proof.
  unfold conviction_body. intros H.
  apply bind_py_ok in H as (info & s1 & _ & H).
  apply bind_py_ok in H as (? & s2 & _ & H).
  apply bind_py_ok in H as (? & s3 & _ & H).
  apply bind_py_ok in H as (ed1 & s4 & _ & H).
  apply bind_py_ok in H as (self4 & s5 & _ & H).
  apply bind_py_ok in H as (pm & s6 & _ & H).
  apply bind_py_ok in H as (rm & s7 & _ & H).
  apply bind_py_ok in H as (v & s8 & Hv & H).
  apply bind_py_ok in H as (gm & s9 & _ & H).
  apply bind_py_ok in H as (prm & s10 & _ & H).
  apply bind_py_ok in H as (g & s11 & Hg & H).
  apply bind_py_ok in H as (ceo & s12 & _ & H).
  apply bind_py_ok in H as (rd & s13 & _ & H).
  apply bind_py_ok in H as (md & s14 & _ & H).
  apply bind_py_ok in H as (selfl & s15 & _ & H).
  injection H as <- <- <- <-.
  apply lift_ok in Hv as [Hv _]. apply lift_ok in Hg as [Hg _].
  apply valuation_score_of_range in Hv. apply growth_score_of_range in Hg.
  pose proof (management_score_of_le (Ceo.score ceo)) as Hm.
  pose proof (revision_points_range (Revision.score rd)) as [_ Hr].
  pose proof (macro_points_range (Macro.score md)) as Hmac.
  apply IZR_le in Hr.
  exists v, g, (management_score_of (Ceo.score ceo)),
    (0 + IZR (revision_points (Revision.score rd))
     + macro_points (Macro.score md))%R.
  split; [reflexivity |]. split; [reflexivity |].
  repeat split; try lia; try done. lra.
Qed.

Lemma get_enhanced_financial_statements_total w self :
  ∃ self', get_enhanced_financial_statements w self = (Ok tt, self').
Proof.
  unfold get_enhanced_financial_statements. unfold_py.
  repeat case_match; simplify_eq; eauto.
Qed.

(** The method as its prelude followed by the guarded body. *)
Lemma calculate_unfold w self :
  ∃ s1 s2,
    get_comprehensive_valuation_data w self = (Ok tt, s1)
    ∧ get_enhanced_financial_statements w s1 = (Ok tt, s2)
    ∧ calculate_goog_conviction_score w self =
        match conviction_body w s2 with
        | (Ok r, s3) => (Ok r, s3)
        | (Raise _, s3) => (Ok (0%R, ∅, None), s3)
        end.
Proof.
  destruct (normalizer_total w self) as [s1 H1].
  destruct (get_enhanced_financial_statements_total w s1) as [s2 H2].
  exists s1, s2. split; [done |]. split; [done |].
  unfold calculate_goog_conviction_score, try_except. cbn [bind py_monad].
  rewrite H1, H2. by destruct (conviction_body w s2) as [[r | e] s3].
Qed.

(** The method returns, and what it returns is either the failure
    triple or four capped sub-scores with their sum. *)
Lemma calculate_cases w self :
  ∃ total bd ed self',
    calculate_goog_conviction_score w self = (Ok (total, bd, ed), self')
    ∧ ((total = 0%R ∧ bd = ∅ ∧ ed = None)
       ∨ ∃ (v g m : Z) (c : R),
           bd = breakdown_of v g m c
           ∧ total = (IZR v + IZR g + IZR m + c)%R
           ∧ (v ≤ 25)%Z ∧ (g ≤ 25)%Z ∧ (m ≤ 25)%Z ∧ (c <= 25)%R
           ∧ is_Some ed).
Proof.
  destruct (calculate_unfold w self) as (s1 & s2 & _ & _ & ->).
  destruct (conviction_body w s2) as [[[[total bd] ed] | e] s3] eqn:Hbody.
  - exists total, bd, ed, s3. split; [done |]. right.
    by eapply conviction_body_inv.
  - exists 0%R, ∅, None, s3. split; [done |]. by left.
Qed.

Lemma breakdown_sum_of v g m c :
  breakdown_sum (breakdown_of v g m c) = (IZR v + IZR g + IZR m + c)%R.
Proof. reflexivity. Qed.

Lemma calculate_le_100 w self total bd ed self' :
  calculate_goog_conviction_score w self = (Ok (total, bd, ed), self') →
  (total <= 100)%R.
Proof.
  intros H.
  destruct (calculate_cases w self) as (t & b & e & s & H' & Hc).
  rewrite H in H'. injection H' as <- <- <- <-.
  destruct Hc as [(-> & _) | (v & g & m & c & _ & -> & Hv & Hg & Hm & Hc & _)];
    [lra |].
  apply IZR_le in Hv, Hg, Hm. lra.
Qed.

(** *** A run in which every sub-score is at its cap *)

Lemma truthy_payload_insert (m : payload) k v :
  truthy_payload (<[k:=v]> m) = true.
Proof.
  unfold truthy_payload. rewrite bool_decide_eq_false_2; [done |].
  rewrite dom_insert_L. set_solver.
Qed.

Lemma py_int_eq r z :
  (0 <= r)%R → (IZR z <= r < IZR z + 1)%R → py_int r = z.
Proof.
  intros H0 [H1 H2]. unfold py_int. destruct (Rle_dec 0 r); [| contradiction].
  symmetry. apply Int_part_spec. lra.
Qed.

Lemma management_score_of_15 : management_score_of 15 = 25.
Proof.
  unfold management_score_of. rewrite (py_int_eq _ 25) by lra. reflexivity.
Qed.

Lemma macro_points_9 : macro_points 9 = 10%R.
Proof.
  unfold macro_points. rewrite Rmax_left by lra. rewrite Rmin_right by lra.
  reflexivity.
Qed.

Lemma best_connections :
  test_api_connections best init = (Ok tt, yf_only).
Proof.
  unfold test_api_connections. unfold_py. cbn.
  unfold best_info at 1. rewrite truthy_payload_insert.
  unfold best_info. eval_dget. reflexivity.
Qed.

Lemma best_price_metrics :
  ∃ pm,
    price_metrics_of best_info = Ok pm
    ∧ dget pm "current_price" num0 = VNum 100
    ∧ dget pm "current_price" (VNum 1) = VNum 100
    ∧ dget pm "price_target_mean" num0 = VNum 200
    ∧ dget pm "price_vs_52w_high" num0 = VNum (100 / 200 - 1).
Proof.
  unfold price_metrics_of, price_vs, py_div, best_info.
  eval_dget. cbn. decide_cmp. cbn.
  eexists. split; [reflexivity |].
  repeat split; eval_dget; reflexivity.
Qed.

Lemma best_other_metrics :
  ∃ em lm qm,
    efficiency_metrics_of best_info = Ok em
    ∧ leverage_metrics_of best_info = Ok lm
    ∧ quality_metrics_of best_info = Ok qm.
Proof.
  unfold efficiency_metrics_of, leverage_metrics_of, quality_metrics_of,
    analyst_target_upside_of, py_sub, py_div, best_info.
  eval_dget. cbn. decide_cmp. cbn.
  do 3 eexists. repeat split; reflexivity.
Qed.

Lemma best_valuation pm rm :
  dget rm "forward_pe" num0 = VNum 20 →
  dget rm "pe_ratio" num0 = VNum 40 →
  dget rm "peg_ratio" num0 = VNum 0.4 →
  dget pm "current_price" num0 = VNum 100 →
  dget pm "current_price" (VNum 1) = VNum 100 →
  dget pm "price_target_mean" num0 = VNum 200 →
  dget pm "price_vs_52w_high" num0 = VNum (100 / 200 - 1) →
  valuation_score_of pm rm (VNum 0.5) = Ok 25.
Proof.
  intros Hf Ht Hp H1 H2 Hm Hv. unfold valuation_score_of.
  rewrite Hf, Ht, Hp, H1, H2, Hm, Hv.
  py_eval_with ltac:(unfold py_div, pe_compression_score, peg_score,
                     target_upside_score, week52_score).
  reflexivity.
Qed.

Lemma best_growth gm prm :
  dget gm "revenue_growth" num0 = VNum 0.4 →
  dget prm "profit_margins" num0 = VNum 0.35 →
  dget prm "operating_margins" num0 = num0 →
  dget prm "gross_margins" num0 = num0 →
  growth_score_of gm prm (VNum 0.5) = Ok 25.
Proof.
  intros Hr Hp Ho Hg. unfold growth_score_of. rewrite Hr, Hp, Ho, Hg.
  py_eval_with ltac:(unfold earnings_growth_score, revenue_growth_score,
                     profit_margin_score).
  reflexivity.
Qed.

Lemma best_earnings self :
  fmp_api_accessible (data_flags self) = false →
  yfinance_accessible (data_flags self) = true →
  get_goog_earnings_data best self =
    (Ok {| Earnings.cagr := VNum 0.5;
           Earnings.quality := "ESTIMATED";
           Earnings.source := "YFINANCE" |}, self).
Proof.
  intros Hfmp Hyf.
  unfold get_goog_earnings_data, earnings_fmp, earnings_estimates,
    earnings_yfinance.
  unfold_py.
  py_eval_with ltac:(first [rewrite Hfmp | rewrite Hyf | unfold best_info]).
  reflexivity.
Qed.

Lemma best_ceo self :
  yfinance_accessible (data_flags self) = true →
  ceo_database self !! "GOOG" = Some goog_ceo →
  analyze_goog_ceo best self =
    (Ok {| Ceo.name := "Sundar Pichai"; Ceo.score := 15 |}, self).
Proof.
  intros Hyf Hdb.
  unfold analyze_goog_ceo, ceo_performance, performance_score_of.
  unfold_py.
  py_eval_with ltac:(first [ rewrite Hdb | rewrite Hyf
                           | unfold best_info, roe_score, margin_score ]).
  reflexivity.
Qed.

Lemma best_revisions self :
  fmp_api_accessible (data_flags self) = false →
  yfinance_accessible (data_flags self) = true →
  get_goog_revisions best self =
    (Ok {| Revision.score := 6; Revision.direction := "VERY BULLISH";
           Revision.confidence := 0.6; Revision.source := "YFINANCE" |},
     with_flags (set_revision_data_available true) self).
Proof.
  intros Hfmp Hyf.
  unfold get_goog_revisions, revisions_fmp, revisions_yfinance,
    revisions_yfinance_body.
  unfold_py.
  py_eval_with ltac:(first [ rewrite Hfmp | rewrite Hyf
                           | unfold best_info, py_div, upside_component,
                               recommendation_component, analyst_confidence,
                               direction_of ]).
  reflexivity.
Qed.

Lemma best_macro self :
  get_goog_macro_analysis best self =
    (Ok {| Macro.score := 9; Macro.confidence := 0.8 |},
     with_flags (set_macro_data_available true) self).
Proof. reflexivity. Qed.

Lemma best_body pm em lm qm :
  dget pm "current_price" num0 = VNum 100 →
  dget pm "current_price" (VNum 1) = VNum 100 →
  dget pm "price_target_mean" num0 = VNum 200 →
  dget pm "price_vs_52w_high" num0 = VNum (100 / 200 - 1) →
  let s2 := normalized best_info pm em lm qm yf_only in
  let s4 :=
    with_flags (set_macro_data_available true)
      (with_flags (set_revision_data_available true) s2) in
  conviction_body best s2 =
    (Ok (100%R, breakdown_of 25 25 25 25,
         Some {| Enhanced.earnings_data :=
                   {| Earnings.cagr := VNum 0.5;
                      Earnings.quality := "ESTIMATED";
                      Earnings.source := "YFINANCE" |};
                 Enhanced.revision_data :=
                   {| Revision.score := 6;
                      Revision.direction := "VERY BULLISH";
                      Revision.confidence := 0.6;
                      Revision.source := "YFINANCE" |};
                 Enhanced.ceo_analysis :=
                   {| Ceo.name := "Sundar Pichai"; Ceo.score := 15 |};
                 Enhanced.macro_data :=
                   {| Macro.score := 9; Macro.confidence := 0.8 |};
                 Enhanced.valuation_metrics := valuation_metrics s2;
                 Enhanced.data_flags := data_flags s4 |}), s4).
Proof.
  intros Hp1 Hp2 Hp3 Hp4 s2 s4.
  destruct (normalized_metrics best_info pm em lm qm yf_only)
    as (Hc1 & Hc2 & Hc3 & Hc4 & _).
  fold s2 in Hc1, Hc2, Hc3, Hc4.
  assert (fmp_api_accessible (data_flags s2) = false) as Hfmp by reflexivity.
  assert (yfinance_accessible (data_flags s2) = true) as Hyf by reflexivity.
  assert (ceo_database s2 !! "GOOG" = Some goog_ceo) as Hdb by reflexivity.
  unfold conviction_body, lift, get_self, metrics. cbn [bind py_monad].
  cbn [yf_quote best yf_world from_option].
  assert (fmt (dget best_info "currentPrice"
                 (dget best_info "regularMarketPrice" num0)) = Ok tt) as ->.
  { unfold best_info. eval_dget. reflexivity. }
  assert (as_num (dget best_info "marketCap" num0) = Ok 0%R) as ->.
  { unfold best_info. eval_dget. reflexivity. }
  rewrite (best_earnings s2 Hfmp Hyf). cbn [Earnings.cagr].
  rewrite Hc1, Hc2, Hc3, Hc4. cbn [from_option].
  rewrite (best_valuation pm (ratio_metrics_of best_info));
    [| unfold ratio_metrics_of, best_info; eval_dget; reflexivity ..
     | done | done | done | done].
  rewrite (best_growth (growth_metrics_of best_info)
             (profitability_metrics_of best_info));
    [| unfold growth_metrics_of, profitability_metrics_of, best_info;
       eval_dget; reflexivity ..].
  rewrite (best_ceo s2 Hyf Hdb). cbn [Ceo.score].
  rewrite (best_revisions s2 Hfmp Hyf). cbn [Revision.score].
  rewrite best_macro. cbn [Macro.score].
  rewrite management_score_of_15, macro_points_9.
  change (revision_points 6) with 15.
  cbn [ret py_monad]. unfold breakdown_of.
  replace (0 + 15 + 10)%R with 25%R by lra.
  replace (25 + 25 + 25 + 25)%R with 100%R by lra.
  reflexivity.
Qed.

Lemma best_calculation :
  ∃ ed self',
    calculate_goog_conviction_score best yf_only =
      (Ok (100%R, breakdown_of 25 25 25 25, Some ed), self')
    ∧ display_insights (Some ed) = Ok tt.
Proof.
  destruct best_price_metrics as (pm & Hpm & Hp1 & Hp2 & Hp3 & Hp4).
  destruct best_other_metrics as (em & lm & qm & Hem & Hlm & Hqm).
  pose proof (normalizer_complete best yf_only best_info pm em lm qm
                eq_refl Hpm Hem Hlm Hqm) as Hnorm.
  pose proof (best_body pm em lm qm Hp1 Hp2 Hp3 Hp4) as Hbody.
  cbv zeta in Hbody.
  destruct (normalized_metrics best_info pm em lm qm yf_only)
    as (_ & Hc2 & _ & Hc4 & _).
  set (s2 := normalized best_info pm em lm qm yf_only) in *.
  assert (get_enhanced_financial_statements best s2 = (Ok tt, s2)) as Hfin
    by reflexivity.
  do 2 eexists. split.
  - unfold calculate_goog_conviction_score, try_except. cbn [bind py_monad].
    rewrite Hnorm, Hfin, Hbody. reflexivity.
  - unfold display_insights, fmt_metrics.
    cbn [Enhanced.earnings_data Enhanced.valuation_metrics Earnings.cagr fmt
         bind result_monad].
    rewrite Hc2, Hc4.
    unfold ratio_metrics_of at 1. unfold profitability_metrics_of at 1.
    rewrite !truthy_payload_insert. cbn [foldr].
    unfold ratio_metrics_of, profitability_metrics_of, best_info.
    eval_dget. reflexivity.
Qed.

(** The whole run on that input. *)
Lemma best_run :
  ∃ run self',
    run_complete_enhanced_analysis best init = (Ok run, self')
    ∧ Run.conviction_score run = 100%R
    ∧ Run.breakdown run = breakdown_of 25 25 25 25.
Proof.
  destruct best_calculation as (ed & s & Hcalc & Hdisp).
  unfold run_complete_enhanced_analysis. cbn [bind py_monad].
  rewrite best_connections, Hcalc. unfold lift, get_self. rewrite Hdisp.
  assert (display_perspective 100 (breakdown_of 25 25 25 25) = Ok tt) as ->.
  { unfold display_perspective, breakdown_of. decide_cmp. eval_lookup.
    reflexivity. }
  do 2 eexists. split; [reflexivity |]. by split.
Qed.

(** *** The composite score *)

Lemma sub_score_le_25 v g m c k :
  (v ≤ 25)%Z → (g ≤ 25)%Z → (m ≤ 25)%Z → (c <= 25)%R →
  (sub_score (breakdown_of v g m c) k <= 25)%R.
Proof.
  intros Hv Hg Hm Hc. apply IZR_le in Hv, Hg, Hm.
  unfold sub_score, breakdown_of.
  repeat (rewrite lookup_insert; case_decide; [cbn; lra |]).
  rewrite lookup_singleton. case_decide; cbn; lra.
Qed.

(** C7, as stated, fails: no input makes the composite exceed 100. *)
Lemma composite_above_100_counterexample :
  ¬ ∃ w self total bd ed self',
      calculate_goog_conviction_score w self = (Ok (total, bd, ed), self')
      ∧ (100 < total)%R.
Proof.
  intros (w & self & total & bd & ed & self' & H & Hgt).
  apply calculate_le_100 in H. lra.
Qed.

(** C7, amended. The composite is the sum of the four sub-scores with
    no clamp of its own, but each sub-score is at most 25, so the sum
    never exceeds 100; it reaches exactly 100 when every sub-score is at
    its cap. *)
Theorem composite_at_most_100 (w : world) (self : analyzer) :
  (∃ total bd ed self',
     calculate_goog_conviction_score w self = (Ok (total, bd, ed), self')
     ∧ total = breakdown_sum bd
     ∧ (∀ k, (sub_score bd k <= 25)%R)
     ∧ (total <= 100)%R)
  ∧ (∃ ed self',
       calculate_goog_conviction_score best yf_only =
         (Ok (100%R, breakdown_of 25 25 25 25, Some ed), self')).
Proof.
  split.
  - destruct (calculate_cases w self) as (total & bd & ed & s & H & Hc).
    exists total, bd, ed, s. split; [done |].
    destruct Hc
      as [(-> & -> & _) | (v & g & m & c & -> & -> & Hv & Hg & Hm & Hc & _)].
    + split; [unfold breakdown_sum, sub_score; rewrite !lookup_empty; cbn; lra |].
      split; [intros k; unfold sub_score; rewrite lookup_empty; cbn; lra |].
      lra.
    + split; [by rewrite breakdown_sum_of |].
      split; [intros k; by apply sub_score_le_25 |].
      apply IZR_le in Hv, Hg, Hm. lra.
  - destruct best_calculation as (ed & s & H & _). by eauto.
Qed.

(** C1. The composite score is exactly the sum of the four sub-scores
    in the breakdown, and a run hands that sum as it is to the
    Recommendation Mapper. *)
Theorem composite_is_plain_sum (w : world) (self : analyzer) :
  (∃ total bd ed self',
     calculate_goog_conviction_score w self = (Ok (total, bd, ed), self')
     ∧ total = breakdown_sum bd)
  ∧ (∀ run self',
       run_complete_enhanced_analysis w self = (Ok run, self') →
       (∃ (v g m : Z) (c : R),
          Run.breakdown run = breakdown_of v g m c
          ∧ Run.conviction_score run = (IZR v + IZR g + IZR m + c)%R)
       ∧ Run.recommendation run
         = get_position_recommendation (Run.conviction_score run)).
Proof.
  split.
  - destruct (calculate_cases w self) as (total & bd & ed & s & H & Hc).
    exists total, bd, ed, s. split; [done |].
    destruct Hc as [(-> & -> & _) | (v & g & m & c & -> & -> & _)].
    + unfold breakdown_sum, sub_score. rewrite !lookup_empty. cbn. lra.
    + by rewrite breakdown_sum_of.
  - intros run self' H. unfold run_complete_enhanced_analysis in H.
    apply bind_py_ok in H as ([] & s0 & _ & H).
    apply bind_py_ok in H as ([[total bd] ed] & s1 & Hcalc & H).
    apply bind_py_ok in H as ([] & s2 & Hdisp & H).
    apply bind_py_ok in H as ([] & s3 & _ & H).
    apply bind_py_ok in H as (selfl & s4 & _ & H).
    injection H as <- <-. cbn [Run.breakdown Run.conviction_score
                               Run.recommendation].
    split; [| reflexivity].
    apply lift_ok in Hdisp as [Hdisp _].
    destruct (calculate_cases w s0) as (t & b & e & s & H' & Hc).
    rewrite Hcalc in H'. injection H' as <- <- <- <-.
    destruct Hc as [(_ & _ & ->) | (v & g & m & c & -> & -> & _)];
      [discriminate | by exists v, g, m, c].
Qed.

Lemma composite_is_plain_sum_witness :
  ∃ run self',
    run_complete_enhanced_analysis best init = (Ok run, self')
    ∧ Run.recommendation run
      = get_position_recommendation (Run.conviction_score run).
Proof.
  destruct best_run as (run & s & Hrun & _).
  exists run, s. split; [exact Hrun |].
  exact (proj2 (proj2 (composite_is_plain_sum best init) run s Hrun)).
Defined.

(** C10. The conviction computation never propagates an exception:
    whenever the body of its [try] block raises, whatever the
    exception, it returns a score of 0 with an empty breakdown and empty
    enhanced data; a failing quote lookup is one such case. *)
Theorem conviction_failure_contained (w : world) (self : analyzer) :
  (∃ r self', calculate_goog_conviction_score w self = (Ok r, self'))
  ∧ (∀ s1 s2 e s3,
       get_comprehensive_valuation_data w self = (Ok tt, s1) →
       get_enhanced_financial_statements w s1 = (Ok tt, s2) →
       conviction_body w s2 = (Raise e, s3) →
       calculate_goog_conviction_score w self = (Ok (0%R, ∅, None), s3))
  ∧ (yf_quote w = None →
     ∃ self',
       calculate_goog_conviction_score w self = (Ok (0%R, ∅, None), self')).
Proof.
  split; [| split].
  - destruct (calculate_cases w self) as (total & bd & ed & s & H & _).
    by eauto.
  - intros s1 s2 e s3 H1 H2 Hbody.
    unfold calculate_goog_conviction_score, try_except. cbn [bind py_monad].
    by rewrite H1, H2, Hbody.
  - intros Hq.
    destruct (calculate_unfold w self) as (s1 & s2 & _ & _ & ->).
    unfold conviction_body, lift. cbn [bind py_monad]. rewrite Hq. cbn.
    by eauto.
Qed.

Lemma conviction_failure_contained_witness :
  yf_quote offline = None
  ∧ ∃ self',
      calculate_goog_conviction_score offline init
      = (Ok (0%R, ∅, None), self').
Proof.
  assert (yf_quote offline = None) as H by reflexivity.
  split; [exact H |].
  exact (proj2 (proj2 (conviction_failure_contained offline init)) H).
Defined.

(** The caller is less careful: on the failure triple its report
    divides by the number of flags in the empty [enhanced_data], so the
    run as a whole still ends in an exception. *)
Remark offline_run_raises :
  ∃ self',
    run_complete_enhanced_analysis offline init
    = (Raise ZeroDivisionError, self').
Proof.
  destruct (calculate_unfold offline init) as (s1 & s2 & _ & _ & Hcalc).
  assert (conviction_body offline s2 = (Raise ConnectionError, s2)) as Hbody
    by reflexivity.
  rewrite Hbody in Hcalc.
  unfold run_complete_enhanced_analysis. cbn [bind py_monad].
  assert (test_api_connections offline init = (Ok tt, init)) as ->
    by reflexivity.
  rewrite Hcalc. cbn. by eauto.
Qed.
(** * Further properties *)

(** ** What every method keeps *)
























(** ** Macro Environment Calculator *)







(** ** Management Quality Calculator *)

Lemma final_score_range s : (0 ≤ final_score s ≤ 15)%Z.
Proof. unfold final_score. lia. Qed.




Lemma management_score_of_nonneg s : (0 ≤ s)%Z → (0 ≤ management_score_of s)%Z.
Proof.
  intros H. unfold management_score_of, py_int.
  apply IZR_le in H.
  destruct (Rle_dec 0 (IZR s * 1.67)) as [Hle | Hn]; [| lra].
  apply Z.min_glb; [| lia].
  apply le_IZR. pose proof (base_Int_part (IZR s * 1.67)) as [H1 H2].
  assert (-1 < IZR (Int_part (IZR s * 1.67)))%R as Hgt by lra.
  apply lt_IZR in Hgt. apply IZR_le. lia.
Qed.


(** ** Conviction Scorer: the floor of the composite score *)






(** ** Revision-Trend Calculator: labels and scores *)









(** ** A neutral primary result counts as no result *)











(** ** Earnings-Trend Calculator: what the result can be *)




(** ** Earnings-Trend Calculator: signs and unprintable figures *)






(** ** Metrics Normalizer: completion, failure and repetition *)

Lemma normalized_flags info pm em lm qm self :
  valuation_data_complete (data_flags (normalized info pm em lm qm self)) = true
  ∧ yfinance_accessible (data_flags (normalized info pm em lm qm self)) = true.
Proof. done. Qed.





(** ** Metrics Normalizer: fields that are present *)




(** ** Metrics Normalizer: the metrics it computes *)



(** ** Recommendation Mapper: the five fields *)

(** ** When the conviction computation fails *)




(** ** The data access report *)























